(** * furi/core/timer.c: the software timer service

    A shallow embedding of [furi/core/timer.c] as interaction trees.  Every
    call the file makes into the FreeRTOS kernel, the allocator, the thread
    registry or the application is an event; the functions of the file are
    the trees built from those events, in the order the C code performs
    them.  A fuel-bounded runner executes a tree against an arbitrary
    kernel, recording the calls and their answers, and the properties of
    the timer service are proved about that runner, for every kernel. *)

From Stdlib Require Import ZArith List Lia Bool.
From stdpp Require Import base option gmap.
From ITree Require Import ITree Eq.Shallow.
Import ListNotations.
Local Open Scope Z_scope.

Declare Scope furi_scope.
Delimit Scope furi_scope with furi.
Notation "x <- t ;; k" := (ITree.bind t (fun x => k))
  (at level 20, t at level 99, k at level 200, only parsing) : furi_scope.
Notation "t ;; k" := (ITree.bind t (fun _ => k))
  (at level 100, k at level 200, only parsing, right associativity) : furi_scope.
Local Open Scope furi_scope.

(** ** Machine integers and pointers *)

(** The target is a 32-bit machine: [uint32_t] and pointers are 32 bits
    wide.  [u32] is the conversion to [uint32_t]. *)
Definition u32 (z : Z) : Z := z mod 2 ^ 32.

Definition NULL : Z := 0.

(** [(uint32_t)callb | 1U]: store the dynamic allocation flag. *)
Definition set_alloc_flag (callb : Z) : Z := Z.lor (u32 callb) 1.

(** [(uint32_t)callb & ~1U]: remove the dynamic allocation flag. *)
Definition clear_alloc_flag (callb : Z) : Z := Z.land (u32 callb) (u32 (Z.lnot 1)).

(** [(uint32_t)callb & 1U]: the dynamic allocation flag, as a C condition. *)
Definition alloc_flag (callb : Z) : bool := negb (Z.land (u32 callb) 1 =? 0).

(** ** Constants of the headers

    The macros and enumerators that [timer.c] takes from [FreeRTOS.h],
    [FreeRTOSConfig.h], [timers.h], [base.h] and [timer.h].  Their values
    are fixed by the build, not by [timer.c], so they are parameters. *)
Class Platform := {
  portMAX_DELAY : Z;
  FuriWaitForever : Z;
  pdPASS : Z;
  pdFAIL : Z;
  pdTRUE : Z;
  pdFALSE : Z;
  configTIMER_TASK_PRIORITY : Z;
  configMAX_PRIORITIES : Z;
  FuriTimerTypeOnce : Z;
  FuriTimerThreadPriorityNormal : Z;
  FuriTimerThreadPriorityElevated : Z;
  sizeof_TimerCallback_t : Z
}.

(** [FuriStatus], restricted to the two values [timer.c] returns. *)
Inductive FuriStatus : Type :=
| FuriStatusOk
| FuriStatusErrorResource.

(** [TimerCallback_t]: the callback slot. *)
Record TimerCallback_t : Type := {
  func : Z;
  context : Z
}.

(** ** Events *)

(** Calls that leave [timer.c]: [kernel.h], [thread.h], [memmgr.h],
    [timers.h] and [task.h].  Handles, pointers, ticks and [BaseType_t]
    results are integers.  [xTimerCreate] is always given [TimerCallback]
    as its callback function, so that argument is not carried. *)
Variant rtosE : Type -> Type :=
| furi_kernel_is_irq_or_masked : rtosE bool
| furi_delay_tick (ticks : Z) : rtosE unit
| furi_thread_get_current_id : rtosE Z
| furi_thread_get_appid (thread_id : Z) : rtosE Z
| malloc (size : Z) : rtosE Z
| free (p : Z) : rtosE unit
| xTimerCreate (name period reload id : Z) : rtosE Z
| pvTimerGetTimerID (hTimer : Z) : rtosE Z
| pcTimerGetName (hTimer : Z) : rtosE Z
| xTimerStop (hTimer wait : Z) : rtosE Z
| xTimerDelete (hTimer wait : Z) : rtosE Z
| xTimerChangePeriod (hTimer ticks wait : Z) : rtosE Z
| xTimerReset (hTimer wait : Z) : rtosE Z
| xTimerIsTimerActive (hTimer : Z) : rtosE Z
| xTimerGetExpiryTime (hTimer : Z) : rtosE Z
| xTimerPendFunctionCallFromISR (callback context arg woken : Z) : rtosE Z
| xTimerPendFunctionCall (callback context arg wait : Z) : rtosE Z
| xTimerGetTimerDaemonTaskHandle : rtosE Z
| vTaskPrioritySet (task priority : Z) : rtosE unit.

(** Everything [timer.c] does besides computing: aborting, calling out,
    reading and writing a callback slot through its pointer, reading and
    writing the global [current_timer_name], and calling the application
    function stored in a slot. *)
Variant furiE : Type -> Type :=
| furi_crash : furiE void
| External {R : Type} (c : rtosE R) : furiE R
| load_func (callb : Z) : furiE Z
| load_context (callb : Z) : furiE Z
| store_func (callb v : Z) : furiE unit
| store_context (callb v : Z) : furiE unit
| read_current_timer_name : furiE Z
| write_current_timer_name (v : Z) : furiE unit
| invoke (f ctx : Z) : furiE unit.

Definition call {R : Type} (c : rtosE R) : itree furiE R :=
  ITree.trigger (External c).

(** [furi_check(ok)]: abort unless [ok]. *)
Definition furi_check (ok : bool) : itree furiE unit :=
  if ok then Ret tt
  else v <- ITree.trigger furi_crash ;; match v : void with end.

(** ** The functions of timer.c *)

Section Source.
Context {P : Platform}.

Definition furi_timer_get_current_name : itree furiE Z :=
  ITree.trigger read_current_timer_name.

Definition TimerCallback (hTimer : Z) : itree furiE unit :=
  callb <- call (pvTimerGetTimerID hTimer) ;;
  let callb := clear_alloc_flag callb in
  if negb (callb =? NULL) then
    name <- call (pcTimerGetName hTimer) ;;
    ITree.trigger (write_current_timer_name name) ;;
    f <- ITree.trigger (load_func callb) ;;
    ctx <- ITree.trigger (load_context callb) ;;
    ITree.trigger (invoke f ctx) ;;
    ITree.trigger (write_current_timer_name NULL)
  else Ret tt.

Definition furi_timer_alloc (func type context : Z) : itree furiE Z :=
  irq <- call furi_kernel_is_irq_or_masked ;;
  furi_check (negb irq && negb (func =? NULL)) ;;
  callb <- call (malloc sizeof_TimerCallback_t) ;;
  ITree.trigger (store_func callb func) ;;
  ITree.trigger (store_context callb context) ;;
  let reload := if type =? FuriTimerTypeOnce then pdFALSE else pdTRUE in
  thread_id <- call furi_thread_get_current_id ;;
  name <- call (furi_thread_get_appid thread_id) ;;
  let callb := set_alloc_flag callb in
  hTimer <- call (xTimerCreate name portMAX_DELAY reload callb) ;;
  furi_check (negb (hTimer =? NULL)) ;;
  Ret hTimer.

Definition furi_timer_is_running (instance : Z) : itree furiE Z :=
  irq <- call furi_kernel_is_irq_or_masked ;;
  furi_check (negb irq) ;;
  furi_check (negb (instance =? NULL)) ;;
  let hTimer := instance in
  active <- call (xTimerIsTimerActive hTimer) ;;
  Ret (u32 active).

(** One turn of [while(furi_timer_is_running(instance)) furi_delay_tick(2);]:
    [inl] goes round again, [inr] leaves the loop. *)
Definition wait_inactive_step (instance : Z) (_ : unit) : itree furiE (unit + unit) :=
  running <- furi_timer_is_running instance ;;
  if negb (running =? 0) then call (furi_delay_tick 2) ;; Ret (inl tt)
  else Ret (inr tt).

Definition furi_timer_free (instance : Z) : itree furiE unit :=
  irq <- call furi_kernel_is_irq_or_masked ;;
  furi_check (negb irq) ;;
  furi_check (negb (instance =? NULL)) ;;
  let hTimer := instance in
  callb <- call (pvTimerGetTimerID hTimer) ;;
  (if alloc_flag callb then
     stopped <- call (xTimerStop hTimer portMAX_DELAY) ;;
     furi_check (stopped =? pdPASS) ;;
     ITree.iter (wait_inactive_step instance) tt ;;
     let callb := clear_alloc_flag callb in
     call (free callb)
   else Ret tt) ;;
  deleted <- call (xTimerDelete hTimer portMAX_DELAY) ;;
  furi_check (deleted =? pdPASS).

Definition furi_timer_start (instance ticks : Z) : itree furiE FuriStatus :=
  irq <- call furi_kernel_is_irq_or_masked ;;
  furi_check (negb irq) ;;
  furi_check (negb (instance =? NULL)) ;;
  furi_check (ticks <? portMAX_DELAY) ;;
  let hTimer := instance in
  changed <- call (xTimerChangePeriod hTimer ticks portMAX_DELAY) ;;
  Ret (if changed =? pdPASS then FuriStatusOk else FuriStatusErrorResource).

Definition furi_timer_restart (instance ticks : Z) : itree furiE FuriStatus :=
  irq <- call furi_kernel_is_irq_or_masked ;;
  furi_check (negb irq) ;;
  furi_check (negb (instance =? NULL)) ;;
  furi_check (ticks <? portMAX_DELAY) ;;
  let hTimer := instance in
  changed <- call (xTimerChangePeriod hTimer ticks portMAX_DELAY) ;;
  if changed =? pdPASS then
    reset <- call (xTimerReset hTimer portMAX_DELAY) ;;
    Ret (if reset =? pdPASS then FuriStatusOk else FuriStatusErrorResource)
  else Ret FuriStatusErrorResource.

Definition furi_timer_stop (instance : Z) : itree furiE FuriStatus :=
  irq <- call furi_kernel_is_irq_or_masked ;;
  furi_check (negb irq) ;;
  furi_check (negb (instance =? NULL)) ;;
  let hTimer := instance in
  stopped <- call (xTimerStop hTimer portMAX_DELAY) ;;
  furi_check (stopped =? pdPASS) ;;
  Ret FuriStatusOk.

Definition furi_timer_get_expire_time (instance : Z) : itree furiE Z :=
  irq <- call furi_kernel_is_irq_or_masked ;;
  furi_check (negb irq) ;;
  furi_check (negb (instance =? NULL)) ;;
  let hTimer := instance in
  expiry <- call (xTimerGetExpiryTime hTimer) ;;
  Ret (u32 expiry).

(** The initial [ret = pdFAIL] is overwritten on both branches. *)
Definition furi_timer_pending_callback (callback context arg : Z) : itree furiE unit :=
  furi_check (negb (callback =? NULL)) ;;
  irq <- call furi_kernel_is_irq_or_masked ;;
  ret <- (if irq : bool
          then call (xTimerPendFunctionCallFromISR callback context arg NULL)
          else call (xTimerPendFunctionCall callback context arg FuriWaitForever)) ;;
  furi_check (ret =? pdPASS).

Definition furi_timer_set_thread_priority (priority : Z) : itree furiE unit :=
  irq <- call furi_kernel_is_irq_or_masked ;;
  furi_check (negb irq) ;;
  task_handle <- call xTimerGetTimerDaemonTaskHandle ;;
  furi_check (negb (task_handle =? NULL)) ;;
  if priority =? FuriTimerThreadPriorityNormal then
    call (vTaskPrioritySet task_handle configTIMER_TASK_PRIORITY)
  else if priority =? FuriTimerThreadPriorityElevated then
    call (vTaskPrioritySet task_handle (u32 (configMAX_PRIORITIES - 1)))
  else v <- ITree.trigger furi_crash ;; match v : void with end.

End Source.

(** ** Running a tree against a kernel *)

(** The state a run works on: the global [current_timer_name], the
    callback slots that are allocated (by address), and the state of
    whatever implements the external calls. *)
Record World (K : Type) : Type := {
  current_timer_name : Z;
  slots : gmap Z TimerCallback_t;
  os : K
}.
Arguments current_timer_name {K} _.
Arguments slots {K} _.
Arguments os {K} _.

(** What [timer.c] runs against.  [kernel] answers an external call and
    moves the kernel state; since the daemon and other threads run
    concurrently with the caller, any call may find and leave the state
    changed.  [application f ctx name] is the application function at
    address [f] called with [ctx] while [furi_timer_get_current_name()]
    reads [name]; it may allocate or release slots and use the kernel. *)
Record Environment (K : Type) : Type := {
  kernel : forall R : Type, rtosE R -> K -> K * R;
  application : Z -> Z -> Z -> gmap Z TimerCallback_t * K -> gmap Z TimerCallback_t * K
}.
Arguments kernel {K} _ {R} _ _.
Arguments application {K} _ _ _ _ _.

(** How a run ends: the function returned, [furi_crash] halted the
    process, a slot was accessed through a pointer that is not an
    allocated slot, or the run was cut off before the function returned. *)
Inductive outcome (R : Type) : Type :=
| Returned (r : R)
| Crashed
| Fault
| Blocked.
Arguments Returned {R} _.
Arguments Crashed {R}.
Arguments Fault {R}.
Arguments Blocked {R}.

(** An answered event. *)
Inductive entry : Type :=
| Ev {R : Type} (e : furiE R) (r : R).

Definition ext {R : Type} (c : rtosE R) (r : R) : entry := Ev (External c) r.

Variant reply (R : Type) : Type :=
| Answer (r : R)
| Halt
| Trap.
Arguments Answer {R} _.
Arguments Halt {R}.
Arguments Trap {R}.

Record result (K R : Type) : Type := {
  ended : outcome R;
  final : World K;
  trace : list entry;
  fuel_left : nat
}.
Arguments ended {K R} _.
Arguments final {K R} _.
Arguments trace {K R} _.
Arguments fuel_left {K R} _.

Section Run.
Context {K : Type} (env : Environment K).

Definition set_os (w : World K) (k : K) : World K :=
  {| current_timer_name := current_timer_name w; slots := slots w; os := k |}.

Definition set_slots (w : World K) (m : gmap Z TimerCallback_t) : World K :=
  {| current_timer_name := current_timer_name w; slots := m; os := os w |}.

Definition set_current_timer_name (w : World K) (v : Z) : World K :=
  {| current_timer_name := v; slots := slots w; os := os w |}.

(** An external call is answered by the kernel.  [malloc] and [free]
    also make the block at the returned or given address an allocated
    slot or no longer one; a fresh block reads as zero until written. *)
Definition handle_external {R : Type} (c : rtosE R) (w : World K) : World K * R :=
  let (k, r) := kernel env c (os w) in
  match c in rtosE X return X -> World K * X with
  | malloc _ => fun p =>
      (if p =? NULL then set_os w k
       else set_slots (set_os w k) (<[p := {| func := 0; context := 0 |}]> (slots w)), p)
  | free p => fun u => (set_slots (set_os w k) (delete p (slots w)), u)
  | _ => fun r => (set_os w k, r)
  end r.

Definition handle {R : Type} (e : furiE R) (w : World K) : World K * reply R :=
  match e in furiE X return World K * reply X with
  | furi_crash => (w, Halt)
  | External c => let (w', r) := handle_external c w in (w', Answer r)
  | load_func callb =>
      match slots w !! callb with
      | Some s => (w, Answer (func s))
      | None => (w, Trap)
      end
  | load_context callb =>
      match slots w !! callb with
      | Some s => (w, Answer (context s))
      | None => (w, Trap)
      end
  | store_func callb v =>
      match slots w !! callb with
      | Some s => (set_slots w (<[callb := {| func := v; context := context s |}]> (slots w)), Answer tt)
      | None => (w, Trap)
      end
  | store_context callb v =>
      match slots w !! callb with
      | Some s => (set_slots w (<[callb := {| func := func s; context := v |}]> (slots w)), Answer tt)
      | None => (w, Trap)
      end
  | read_current_timer_name => (w, Answer (current_timer_name w))
  | write_current_timer_name v => (set_current_timer_name w v, Answer tt)
  | invoke f ctx =>
      let (m, k) := application env f ctx (current_timer_name w) (slots w, os w) in
      (set_slots (set_os w k) m, Answer tt)
  end.

Definition stop {R : Type} (o : outcome R) (w : World K) (fuel : nat) : result K R :=
  {| ended := o; final := w; trace := []; fuel_left := fuel |}.

Definition after {R : Type} (x : entry) (r : result K R) : result K R :=
  {| ended := ended r; final := final r; trace := x :: trace r; fuel_left := fuel_left r |}.

(** [run fuel t w] performs at most [fuel] steps of [t] from [w]; an
    event and a silent step of a loop cost one each. *)
Fixpoint run {R : Type} (fuel : nat) (t : itree furiE R) (w : World K) : result K R :=
  match observe t with
  | RetF r => stop (Returned r) w fuel
  | TauF t' =>
      match fuel with
      | O => stop Blocked w O
      | S fuel' => run fuel' t' w
      end
  | VisF e k =>
      match fuel with
      | O => stop Blocked w O
      | S fuel' =>
          match handle e w with
          | (w', Answer x) => after (Ev e x) (run fuel' (k x) w')
          | (w', Halt) => stop Crashed w' fuel'
          | (w', Trap) => stop Fault w' fuel'
          end
      end
  end.

End Run.

(** ** A simulated kernel

    Modelled from the spec: the kernel timer subsystem, the deferred-call
    subsystem, the allocator and the thread-identity provider, which
    [timer.c] only calls.  The properties below are proved for every
    kernel; this one serves to run the timer service on concrete states.

    A small deterministic kernel.  It keeps the timer objects, hands out
    handles and blocks from two cursors, and accepts or refuses each
    command sent to the daemon according to a script, so that a full
    command queue can be played.  The daemon may be in the middle of a
    timer's callback for a number of ticks; a timer is reported active
    while it is armed or its callback has not returned, and no timer is
    created on a handle whose callback is still running. *)
Module Sim.

Record timer : Type := {
  name : Z;
  period : Z;
  reload : Z;
  id : Z;
  armed : bool;
  expiry : Z
}.

Record state : Type := {
  irq : bool;
  now : Z;
  timers : gmap Z timer;
  in_callback : option (Z * Z);
  queue : list bool;
  next_handle : Z;
  next_block : Z;
  daemon_task : Z;
  daemon_priority : Z;
  pended : list (Z * Z * Z);
  thread : Z;
  appid : Z;
  fired : list (Z * Z * Z)
}.

Definition with_timers (s : state) (m : gmap Z timer) : state :=
  {| irq := irq s; now := now s; timers := m; in_callback := in_callback s;
     queue := queue s; next_handle := next_handle s; next_block := next_block s;
     daemon_task := daemon_task s; daemon_priority := daemon_priority s;
     pended := pended s; thread := thread s; appid := appid s; fired := fired s |}.

Definition with_queue (s : state) (q : list bool) : state :=
  {| irq := irq s; now := now s; timers := timers s; in_callback := in_callback s;
     queue := q; next_handle := next_handle s; next_block := next_block s;
     daemon_task := daemon_task s; daemon_priority := daemon_priority s;
     pended := pended s; thread := thread s; appid := appid s; fired := fired s |}.

Definition with_cursors (s : state) (h b : Z) : state :=
  {| irq := irq s; now := now s; timers := timers s; in_callback := in_callback s;
     queue := queue s; next_handle := h; next_block := b;
     daemon_task := daemon_task s; daemon_priority := daemon_priority s;
     pended := pended s; thread := thread s; appid := appid s; fired := fired s |}.

Definition with_daemon (s : state) (t : Z) (c : option (Z * Z)) (prio : Z)
    (calls : list (Z * Z * Z)) : state :=
  {| irq := irq s; now := t; timers := timers s; in_callback := c;
     queue := queue s; next_handle := next_handle s; next_block := next_block s;
     daemon_task := daemon_task s; daemon_priority := prio;
     pended := calls; thread := thread s; appid := appid s; fired := fired s |}.

Definition with_fired (s : state) (l : list (Z * Z * Z)) : state :=
  {| irq := irq s; now := now s; timers := timers s; in_callback := in_callback s;
     queue := queue s; next_handle := next_handle s; next_block := next_block s;
     daemon_task := daemon_task s; daemon_priority := daemon_priority s;
     pended := pended s; thread := thread s; appid := appid s; fired := l |}.

(** Send a command to the daemon: the script says whether the queue
    takes it; an exhausted script accepts. *)
Definition send (s : state) : state * bool :=
  match queue s with
  | [] => (s, true)
  | ok :: rest => (with_queue s rest, ok)
  end.

Definition update (h : Z) (f : timer -> timer) (s : state) : state :=
  with_timers s (alter f h (timers s)).

Definition executing (s : state) (h : Z) : bool :=
  match in_callback s with
  | Some (h', _) => h' =? h
  | None => false
  end.

Section Kernel.
Context {P : Platform}.

Definition command (s : state) (apply : state -> state) : state * Z :=
  let (s', ok) := send s in
  if ok : bool then (apply s', pdPASS) else (s', pdFAIL).

Definition step {R : Type} (c : rtosE R) (s : state) : state * R :=
  match c in rtosE X return state * X with
  | furi_kernel_is_irq_or_masked => (s, irq s)
  | furi_delay_tick ticks =>
      (with_daemon s (now s + ticks)
         match in_callback s with
         | Some (h, rest) => if rest <=? ticks then None else Some (h, rest - ticks)
         | None => None
         end
         (daemon_priority s) (pended s), tt)
  | furi_thread_get_current_id => (s, thread s)
  | furi_thread_get_appid _ => (s, appid s)
  | malloc size =>
      if next_block s =? 0 then (s, 0)
      else (with_cursors s (next_handle s) (next_block s + size), next_block s)
  | free _ => (s, tt)
  | xTimerCreate name period reload id =>
      if (next_handle s =? 0) || executing s (next_handle s) then (s, 0)
      else (with_timers (with_cursors s (next_handle s + 1) (next_block s))
              (<[next_handle s :=
                   {| Sim.name := name; Sim.period := period; Sim.reload := reload;
                      Sim.id := id; armed := false; expiry := 0 |}]> (timers s)),
            next_handle s)
  | pvTimerGetTimerID h => (s, from_option Sim.id 0 (timers s !! h))
  | pcTimerGetName h => (s, from_option Sim.name 0 (timers s !! h))
  | xTimerStop h _ =>
      command s (update h (fun t =>
        {| Sim.name := Sim.name t; Sim.period := Sim.period t; Sim.reload := Sim.reload t;
           Sim.id := Sim.id t; armed := false; expiry := expiry t |}))
  | xTimerDelete h _ => command s (fun s' => with_timers s' (delete h (timers s')))
  | xTimerChangePeriod h ticks _ =>
      command s (fun s' => update h (fun t =>
        {| Sim.name := Sim.name t; Sim.period := ticks; Sim.reload := Sim.reload t;
           Sim.id := Sim.id t; armed := true; expiry := now s' + ticks |}) s')
  | xTimerReset h _ =>
      command s (fun s' => update h (fun t =>
        {| Sim.name := Sim.name t; Sim.period := Sim.period t; Sim.reload := Sim.reload t;
           Sim.id := Sim.id t; armed := true; expiry := now s' + Sim.period t |}) s')
  | xTimerIsTimerActive h =>
      (s, if from_option armed false (timers s !! h) || executing s h then 1 else 0)
  | xTimerGetExpiryTime h => (s, from_option expiry 0 (timers s !! h))
  | xTimerPendFunctionCallFromISR f ctx arg _ =>
      command s (fun s' =>
        with_daemon s' (now s') (in_callback s') (daemon_priority s') (pended s' ++ [(f, ctx, arg)]))
  | xTimerPendFunctionCall f ctx arg _ =>
      command s (fun s' =>
        with_daemon s' (now s') (in_callback s') (daemon_priority s') (pended s' ++ [(f, ctx, arg)]))
  | xTimerGetTimerDaemonTaskHandle => (s, daemon_task s)
  | vTaskPrioritySet task priority =>
      (if task =? daemon_task s
       then with_daemon s (now s) (in_callback s) priority (pended s)
       else s, tt)
  end.

(** The application functions of the simulation only record that they
    were called, with what context, and the name they could read. *)
Definition app (f ctx name : Z) (ms : gmap Z TimerCallback_t * state)
    : gmap Z TimerCallback_t * state :=
  (fst ms, with_fired (snd ms) (fired (snd ms) ++ [(f, ctx, name)])).

Definition env : Environment state :=
  {| kernel := @step; application := app |}.

End Kernel.

(** A 32-bit build: [portMAX_DELAY] and [FuriWaitForever] are all ones,
    [TimerCallback_t] is two pointers. *)
Definition platform : Platform :=
  {| portMAX_DELAY := 4294967295;
     FuriWaitForever := 4294967295;
     pdPASS := 1;
     pdFAIL := 0;
     pdTRUE := 1;
     pdFALSE := 0;
     configTIMER_TASK_PRIORITY := 2;
     configMAX_PRIORITIES := 32;
     FuriTimerTypeOnce := 0;
     FuriTimerThreadPriorityNormal := 0;
     FuriTimerThreadPriorityElevated := 1;
     sizeof_TimerCallback_t := 8 |}.

(** After kernel start, in thread context, nothing created yet. *)
Definition boot : state :=
  {| irq := false; now := 0; timers := ∅; in_callback := None; queue := [];
     next_handle := 536871936; next_block := 536936448;
     daemon_task := 536870976; daemon_priority := 2;
     pended := []; thread := 536871168; appid := 134480000; fired := [] |}.

Definition in_interrupt (s : state) : state :=
  {| irq := true; now := now s; timers := timers s; in_callback := in_callback s;
     queue := queue s; next_handle := next_handle s; next_block := next_block s;
     daemon_task := daemon_task s; daemon_priority := daemon_priority s;
     pended := pended s; thread := thread s; appid := appid s; fired := fired s |}.

Definition world (s : state) : World state :=
  {| current_timer_name := NULL; slots := ∅; os := s |}.

End Sim.

(** ** Scenarios on the simulated kernel

    A one-shot timer with context [0x1] is allocated and started with ten
    ticks.  From there: the daemon is in the middle of the timer's callback
    with five ticks to go; the command queue has room for one more
    command; the caller is in interrupt context. *)
Module Scenario.

#[local] Existing Instance Sim.platform.

Definition env : Environment Sim.state := Sim.env.

Definition callback : Z := 134246400.

Definition booted : World Sim.state := Sim.world Sim.boot.

Definition hTimer : Z := Sim.next_handle Sim.boot.

Definition created : World Sim.state :=
  final (run env 7 (furi_timer_alloc callback FuriTimerTypeOnce 1) booted).

Definition started : World Sim.state :=
  final (run env 2 (furi_timer_start hTimer 10) created).

Definition firing : World Sim.state :=
  set_os started
    (Sim.with_daemon (os started) (Sim.now (os started)) (Some (hTimer, 5))
       (Sim.daemon_priority (os started)) (Sim.pended (os started))).

Definition congested : World Sim.state :=
  set_os started (Sim.with_queue (os started) [true; false]).

Definition interrupted : World Sim.state :=
  set_os started (Sim.in_interrupt (os started)).

End Scenario.

(** ** Vocabulary of the properties *)

(** The application calls of a trace, in order: function and context. *)
Definition user_calls (tr : list entry) : list (Z * Z) :=
  flat_map (fun x => match x with
                     | Ev (invoke f ctx) _ => [(f, ctx)]
                     | Ev _ _ => []
                     end) tr.

(** The observer that rejects the creation of a kernel timer whose ID
    does not carry the dynamic allocation flag. *)
Definition flagged (s : unit) (x : entry) : option unit :=
  match x with
  | Ev (External c) _ =>
      match c with
      | xTimerCreate _ _ _ id => if alloc_flag id then Some tt else None
      | _ => Some tt
      end
  | Ev _ _ => Some tt
  end.

(** The trace of one test of the loop condition of [furi_timer_free],
    [furi_timer_is_running(instance)] answering [active], and of one turn
    of the loop, which yields after the test. *)
Definition poll (instance active : Z) : list entry :=
  [ext furi_kernel_is_irq_or_masked false; ext (xTimerIsTimerActive instance) active].

Definition busy_turn (instance active : Z) : list entry :=
  poll instance active ++ [ext (furi_delay_tick 2) tt].

(** The exposed operations of [timer.h], with their arguments. *)
Inductive api_call : Type :=
| Op_alloc (func type context : Z)
| Op_free (instance : Z)
| Op_start (instance ticks : Z)
| Op_restart (instance ticks : Z)
| Op_stop (instance : Z)
| Op_is_running (instance : Z)
| Op_get_expire_time (instance : Z)
| Op_pending_callback (callback context arg : Z)
| Op_set_thread_priority (priority : Z)
| Op_get_current_name.

Definition is_pending_callback (c : api_call) : bool :=
  match c with
  | Op_pending_callback _ _ _ => true
  | _ => false
  end.

Definition is_get_current_name (c : api_call) : bool :=
  match c with
  | Op_get_current_name => true
  | _ => false
  end.

(** What runs on the system: a thread calling an exposed operation, or
    the daemon dispatching the expiry of a timer. *)
Inductive activity : Type :=
| Calls (c : api_call)
| Expires (hTimer : Z).

(** The progress of one [furi_timer_free] on a timer whose slot it owns,
    as far as releasing is concerned. *)
Inductive phase : Type :=
| Entered
| Stopping
| Busy
| Quiet
| Released
| Deleted.

(** Feed a trace to an observer with states [St]: the state it ends in,
    or [None] as soon as the observer rejects an event. *)
Fixpoint replay {St : Type} (obs : St -> entry -> option St) (s : St) (tr : list entry)
    : option St :=
  match tr with
  | [] => Some s
  | x :: rest =>
      match obs s x with
      | Some s' => replay obs s' rest
      | None => None
      end
  end.

(** The observer that accepts everything and remembers it. *)
Definition record (seen : list entry) (x : entry) : option (list entry) :=
  Some (seen ++ [x]).

Section Vocabulary.
Context {P : Platform}.

Definition perform (c : api_call) : itree furiE unit :=
  match c with
  | Op_alloc func type context => ITree.bind (furi_timer_alloc func type context) (fun _ => Ret tt)
  | Op_free instance => furi_timer_free instance
  | Op_start instance ticks => ITree.bind (furi_timer_start instance ticks) (fun _ => Ret tt)
  | Op_restart instance ticks => ITree.bind (furi_timer_restart instance ticks) (fun _ => Ret tt)
  | Op_stop instance => ITree.bind (furi_timer_stop instance) (fun _ => Ret tt)
  | Op_is_running instance => ITree.bind (furi_timer_is_running instance) (fun _ => Ret tt)
  | Op_get_expire_time instance => ITree.bind (furi_timer_get_expire_time instance) (fun _ => Ret tt)
  | Op_pending_callback callback context arg => furi_timer_pending_callback callback context arg
  | Op_set_thread_priority priority => furi_timer_set_thread_priority priority
  | Op_get_current_name => ITree.bind furi_timer_get_current_name (fun _ => Ret tt)
  end.

Definition act (a : activity) : itree furiE unit :=
  match a with
  | Calls c => perform c
  | Expires hTimer => TimerCallback hTimer
  end.

(** One answered event seen from a phase, for the timer [instance] whose
    slot is at [slot]: the next phase, or [None] when the event is out of
    order.  The stop command must have been accepted before the timer is
    polled for release; a poll that finds the timer running must be
    followed by a yield before the next poll; the only block that may be
    released is the slot, once, straight after a poll that found the
    timer inactive; the only kernel timer that may be deleted is
    [instance], after its slot was released. *)
Definition advance (instance slot : Z) (ph : phase) (x : entry) : option phase :=
  match x with
  | Ev (External c) r =>
      match c in rtosE X return X -> option phase with
      | xTimerStop h _ => fun stopped =>
          match ph with
          | Entered => Some (if (h =? instance) && (stopped =? pdPASS) then Stopping else Entered)
          | _ => Some ph
          end
      | xTimerIsTimerActive h => fun active =>
          match ph with
          | Stopping | Quiet =>
              if h =? instance then Some (if u32 active =? 0 then Quiet else Busy) else Some ph
          | Busy => if h =? instance then None else Some ph
          | _ => Some ph
          end
      | furi_delay_tick _ => fun _ =>
          match ph with
          | Busy | Quiet => Some Stopping
          | _ => Some ph
          end
      | free p => fun _ =>
          match ph with
          | Quiet => if p =? slot then Some Released else None
          | _ => None
          end
      | xTimerDelete h _ => fun _ =>
          match ph with
          | Released => if h =? instance then Some Deleted else None
          | _ => None
          end
      | _ => fun _ => Some ph
      end r
  | Ev _ _ => Some ph
  end.

Definition protocol (instance slot : Z) : phase -> list entry -> option phase :=
  replay (advance instance slot).

(** [protocol] and [record] side by side: the phase reached and the
    events seen so far. *)
Definition watch (instance slot : Z) (s : phase * list entry) (x : entry)
    : option (phase * list entry) :=
  match advance instance slot (fst s) x with
  | Some ph => Some (ph, snd s ++ [x])
  | None => None
  end.

(** The trace of a [furi_timer_free] that owns the slot and returns: the
    entry checks and the ID, the accepted stop command, the polls that
    found the timer running, each followed by a yield, the poll that found
    it inactive, the release of the slot and the accepted delete command. *)
Definition release_trace (instance id : Z) (busy : list Z) (last : Z) : list entry :=
  [ext furi_kernel_is_irq_or_masked false;
   ext (pvTimerGetTimerID instance) id;
   ext (xTimerStop instance portMAX_DELAY) pdPASS]
  ++ flat_map (busy_turn instance) busy
  ++ poll instance last
  ++ [ext (free (clear_alloc_flag id)) tt;
      ext (xTimerDelete instance portMAX_DELAY) pdPASS].

End Vocabulary.

Section System.
Context {P : Platform} {K : Type} (env : Environment K).

(** The state at start-up: [const char* current_timer_name = NULL;] and
    no slot allocated yet. *)
Definition initial (k : K) : World K :=
  {| current_timer_name := NULL; slots := ∅; os := k |}.

(** Run the activities one after the other, each to its return; [None]
    when one of them does not return within [fuel] steps. *)
Fixpoint schedule (fuel : nat) (todo : list activity) (w : World K) : option (World K) :=
  match todo with
  | [] => Some w
  | a :: rest =>
      let r := run env fuel (act a) w in
      match ended r with
      | Returned _ => schedule fuel rest (final r)
      | _ => None
      end
  end.

(** [holds obs s r Q]: the observer accepts the trace of [r] from state
    [s], and if [r] returned, [Q] holds of the value, the observer's state
    and the world at return.  [safe obs t s w Q] says so of every run of
    [t] from [w], however long. *)
Definition holds {St R : Type} (obs : St -> entry -> option St) (s : St)
    (r : result K R) (Q : R -> St -> World K -> Prop) : Prop :=
  exists s', replay obs s (trace r) = Some s' /\
             forall x, ended r = Returned x -> Q x s' (final r).

Definition safe {St R : Type} (obs : St -> entry -> option St) (t : itree furiE R)
    (s : St) (w : World K) (Q : R -> St -> World K -> Prop) : Prop :=
  forall fuel, holds obs s (run env fuel t w) Q.

(** [waits instance k busy last k']: from kernel state [k], the loop of
    [furi_timer_free] finds the timer running with the answers [busy],
    yielding after each, then finds it inactive with answer [last], and
    the kernel is left in [k']. *)
Inductive waits (instance : Z) : K -> list Z -> Z -> K -> Prop :=
| waits_done k k1 k2 last :
    kernel env furi_kernel_is_irq_or_masked k = (k1, false) ->
    kernel env (xTimerIsTimerActive instance) k1 = (k2, last) ->
    u32 last = 0 ->
    waits instance k [] last k2
| waits_turn k k1 k2 k3 active busy last k' :
    kernel env furi_kernel_is_irq_or_masked k = (k1, false) ->
    kernel env (xTimerIsTimerActive instance) k1 = (k2, active) ->
    u32 active <> 0 ->
    kernel env (furi_delay_tick 2) k2 = (k3, tt) ->
    waits instance k3 busy last k' ->
    waits instance k (active :: busy) last k'.

(** The observer that looks at nothing, for properties of the world
    alone; [keeps_name t] says that [t] returns with
    [current_timer_name] as it found it. *)
Definition unobserved (s : unit) (x : entry) : option unit := Some tt.

Definition keeps_name {R : Type} (t : itree furiE R) : Prop :=
  forall w, safe unobserved t tt w
              (fun _ _ w' => current_timer_name w' = current_timer_name w).

(** Sequencing of results, as [ITree.bind] sequences trees. *)
Definition and_then {R T : Type} (r : result K R)
    (k : R -> nat -> World K -> result K T) : result K T :=
  match ended r with
  | Returned x =>
      let r' := k x (fuel_left r) (final r) in
      {| ended := ended r'; final := final r';
         trace := trace r ++ trace r'; fuel_left := fuel_left r' |}
  | Crashed => {| ended := Crashed; final := final r; trace := trace r; fuel_left := fuel_left r |}
  | Fault => {| ended := Fault; final := final r; trace := trace r; fuel_left := fuel_left r |}
  | Blocked => {| ended := Blocked; final := final r; trace := trace r; fuel_left := fuel_left r |}
  end.

End System.

(** ** Vocabulary of the further properties *)

(** The timer handle an exposed operation is given, when it takes one. *)
Definition handle_of (c : api_call) : option Z :=
  match c with
  | Op_free instance
  | Op_start instance _
  | Op_restart instance _
  | Op_stop instance
  | Op_is_running instance
  | Op_get_expire_time instance => Some instance
  | _ => None
  end.

Definition allocates_or_frees (c : api_call) : bool :=
  match c with
  | Op_alloc _ _ _ | Op_free _ => true
  | _ => false
  end.

(** The observer that rejects whatever makes or unmakes a timer:
    allocating or releasing a block, writing into a slot, creating or
    deleting a kernel timer. *)
Definition no_lifecycle (s : unit) (x : entry) : option unit :=
  match x with
  | Ev (External c) _ =>
      match c with
      | malloc _ | free _ | xTimerCreate _ _ _ _ | xTimerDelete _ _ => None
      | _ => Some tt
      end
  | Ev (store_func _ _) _ | Ev (store_context _ _) _ => None
  | Ev _ _ => Some tt
  end.

(** The observer that rejects releasing a block and deleting a kernel
    timer. *)
Definition no_release (s : unit) (x : entry) : option unit :=
  match x with
  | Ev (External c) _ =>
      match c with
      | free _ | xTimerDelete _ _ => None
      | _ => Some tt
      end
  | Ev _ _ => Some tt
  end.

Section Hung.
Context {P : Platform} {K : Type} (env : Environment K).

(** [env] with a daemon that never comes back from a callback: whatever
    the timer, it is reported active. *)
Definition hung : Environment K :=
  {| kernel := fun R (c : rtosE R) (k : K) =>
       match c in rtosE X return K * X -> K * X with
       | xTimerIsTimerActive _ => fun a => (fst a, pdTRUE)
       | _ => fun a => a
       end (kernel env c k);
     application := application env |}.

End Hung.

Section Frame.
Context {K : Type} (env : Environment K).

(** [untouched t]: no run of [t] makes or unmakes a timer, and [t]
    returns with the slots and [current_timer_name] as it found them. *)
Definition untouched {R : Type} (t : itree furiE R) : Prop :=
  forall w, safe env no_lifecycle t tt w
              (fun _ _ w' => slots w' = slots w /\
                             current_timer_name w' = current_timer_name w).

End Frame.

(** ** Further scenarios on the simulated kernel

    The kernel has no timer object left to hand out; the command queue
    refuses the next command; the daemon never comes back from the
    timer's callback. *)
Module Edge.

#[local] Existing Instance Sim.platform.

Definition exhausted : World Sim.state :=
  set_os Scenario.booted (Sim.with_cursors Sim.boot 0 (Sim.next_block Sim.boot)).

Definition refusing : World Sim.state :=
  set_os Scenario.started (Sim.with_queue (os Scenario.started) [false]).

Definition stuck : Environment Sim.state := hung Scenario.env.

End Edge.

(** * Properties *)

(** ** Bits of a tagged pointer *)

Lemma u32_range (z : Z) : 0 <= u32 z < 2 ^ 32.
Proof. unfold u32. apply Z.mod_pos_bound. lia. Qed.

Lemma u32_small (z : Z) : 0 <= z < 2 ^ 32 -> u32 z = z.
Proof. intros H. unfold u32. apply Z.mod_small. exact H. Qed.

Lemma testbit_one (n : Z) : 0 <= n -> Z.testbit 1 n = (n =? 0).
Proof.
  intros Hn. change 1 with (2 ^ 0). rewrite Z.pow2_bits_eqb by lia.
  apply Z.eqb_sym.
Qed.

Lemma u32_bits (z n : Z) : 0 <= n -> Z.testbit (u32 z) n = (n <? 32) && Z.testbit z n.
Proof. intros Hn. unfold u32. apply Z.testbit_mod_pow2. lia. Qed.

Lemma set_alloc_flag_bits (callb n : Z) :
  0 <= n ->
  Z.testbit (set_alloc_flag callb) n = (n <? 32) && Z.testbit callb n || (n =? 0).
Proof.
  intros Hn. unfold set_alloc_flag.
  rewrite Z.lor_spec, u32_bits, testbit_one by lia. reflexivity.
Qed.

Lemma clear_alloc_flag_bits (callb n : Z) :
  0 <= n ->
  Z.testbit (clear_alloc_flag callb) n = (n <? 32) && Z.testbit callb n && negb (n =? 0).
Proof.
  intros Hn. unfold clear_alloc_flag.
  rewrite Z.land_spec, !u32_bits, Z.lnot_spec, testbit_one by lia.
  destruct (n <? 32), (Z.testbit callb n), (n =? 0); reflexivity.
Qed.

Lemma alloc_flag_bit (callb : Z) : alloc_flag callb = Z.testbit callb 0.
Proof.
  unfold alloc_flag. change 1 with (Z.ones 1) at 1.
  rewrite Z.land_ones by lia. change (2 ^ 1) with 2.
  rewrite <- Z.bit0_mod, u32_bits by lia. cbn [andb Z.ltb Z.compare].
  destruct (Z.testbit callb 0); reflexivity.
Qed.

Lemma alloc_flag_set (callb : Z) : alloc_flag (set_alloc_flag callb) = true.
Proof.
  rewrite alloc_flag_bit, set_alloc_flag_bits by lia. apply orb_true_r.
Qed.

Lemma clear_set_aligned (p : Z) :
  0 <= p < 2 ^ 32 -> Z.even p = true -> clear_alloc_flag (set_alloc_flag p) = p.
Proof.
  intros Hp He. apply Z.bits_inj'. intros n Hn.
  rewrite clear_alloc_flag_bits, set_alloc_flag_bits by lia.
  rewrite <- (u32_small p Hp) at 2. rewrite u32_bits by lia.
  destruct (Z.eqb_spec n 0) as [->|Hn0].
  - rewrite Z.bit0_odd, <- Z.negb_even, He. reflexivity.
  - destruct (n <? 32), (Z.testbit p n); reflexivity.
Qed.

(** ** How a run proceeds *)

Section RunFacts.
Context {K : Type} (env : Environment K).

Lemma run_unfold {R : Type} (fuel : nat) (t : itree furiE R) (w : World K) :
  run env fuel t w =
  match observe t with
  | RetF r => stop (Returned r) w fuel
  | TauF t' =>
      match fuel with
      | O => stop Blocked w O
      | S fuel' => run env fuel' t' w
      end
  | VisF e k =>
      match fuel with
      | O => stop Blocked w O
      | S fuel' =>
          match handle env e w with
          | (w', Answer x) => after (Ev e x) (run env fuel' (k x) w')
          | (w', Halt) => stop Crashed w' fuel'
          | (w', Trap) => stop Fault w' fuel'
          end
      end
  end.
Proof. destruct fuel; reflexivity. Qed.

Lemma run_observe {R : Type} (t t' : itree furiE R) (fuel : nat) (w : World K) :
  observe t = observe t' -> run env fuel t w = run env fuel t' w.
Proof.
  intros H. rewrite (run_unfold fuel t), (run_unfold fuel t'), H. reflexivity.
Qed.

Lemma run_ret {R : Type} (x : R) (fuel : nat) (w : World K) :
  run env fuel (Ret x) w = stop (Returned x) w fuel.
Proof. destruct fuel; reflexivity. Qed.

Lemma run_bind_ret {R T : Type} (x : R) (k : R -> itree furiE T) (fuel : nat) (w : World K) :
  run env fuel (ITree.bind (Ret x) k) w = run env fuel (k x) w.
Proof. apply run_observe. reflexivity. Qed.

Lemma run_bind {R T : Type} (t : itree furiE R) (k : R -> itree furiE T)
    (fuel : nat) (w : World K) :
  run env fuel (ITree.bind t k) w =
  and_then (run env fuel t w) (fun x fuel' w' => run env fuel' (k x) w').
Proof.
  revert t w. induction fuel as [|fuel IH]; intros t w.
  - rewrite (run_unfold 0 (ITree.bind t k)), (run_unfold 0 t), observe_bind.
    destruct (observe t) as [r|t'|X e h]; try reflexivity.
    transitivity (run env 0 (k r) w); [rewrite (run_unfold 0 (k r)); reflexivity|].
    unfold and_then; cbn [stop ended final trace fuel_left app].
    destruct (run env 0 (k r) w); reflexivity.
  - rewrite (run_unfold (S fuel) (ITree.bind t k)), (run_unfold (S fuel) t), observe_bind.
    destruct (observe t) as [r|t'|X e h].
    + transitivity (run env (S fuel) (k r) w); [rewrite (run_unfold _ (k r)); reflexivity|].
      unfold and_then; cbn [stop ended final trace fuel_left app].
      destruct (run env (S fuel) (k r) w); reflexivity.
    + apply IH.
    + cbn. destruct (handle env e w) as [w' [x| |]]; try reflexivity.
      rewrite IH. unfold and_then, after; cbn.
      destruct (ended (run env fuel (h x) w')); reflexivity.
Qed.

Lemma run_iter {R I : Type} (body : I -> itree furiE (I + R)) (i : I)
    (fuel : nat) (w : World K) :
  run env fuel (ITree.iter body i) w =
  and_then (run env fuel (body i) w) (fun lr fuel' w' =>
    match lr with
    | inl i' =>
        match fuel' with
        | O => stop Blocked w' O
        | S f => run env f (ITree.iter body i') w'
        end
    | inr x => stop (Returned x) w' fuel'
    end).
Proof.
  rewrite (run_observe (ITree.iter body i)
             (ITree.bind (body i) (fun lr => match lr with
                                             | inl l => Tau (ITree.iter body l)
                                             | inr r => Ret r
                                             end))) by reflexivity.
  rewrite run_bind. unfold and_then.
  destruct (ended (run env fuel (body i) w)) as [[i'|x]| | |]; try reflexivity.
  - destruct (fuel_left _); reflexivity.
  - rewrite run_ret. reflexivity.
Qed.

Lemma run_trigger {R : Type} (e : furiE R) (fuel : nat) (w : World K) :
  run env (S fuel) (ITree.trigger e) w =
  match handle env e w with
  | (w', Answer x) => after (Ev e x) (stop (Returned x) w' fuel)
  | (w', Halt) => stop Crashed w' fuel
  | (w', Trap) => stop Fault w' fuel
  end.
Proof.
  rewrite run_unfold. cbn. destruct (handle env e w) as [w' [x| |]]; try reflexivity.
  rewrite run_ret. reflexivity.
Qed.

Lemma run_trigger_bind {R T : Type} (e : furiE R) (k : R -> itree furiE T)
    (fuel : nat) (w : World K) :
  run env (S fuel) (ITree.bind (ITree.trigger e) k) w =
  match handle env e w with
  | (w', Answer x) => after (Ev e x) (run env fuel (k x) w')
  | (w', Halt) => stop Crashed w' fuel
  | (w', Trap) => stop Fault w' fuel
  end.
Proof.
  rewrite run_unfold. cbn. destruct (handle env e w) as [w' [x| |]]; try reflexivity.
  f_equal. apply run_observe. reflexivity.
Qed.

Lemma run_call {R : Type} (c : rtosE R) (fuel : nat) (w : World K) :
  run env (S fuel) (call c) w =
  after (ext c (snd (handle_external env c w)))
        (stop (Returned (snd (handle_external env c w)))
              (fst (handle_external env c w)) fuel).
Proof.
  unfold call. rewrite run_trigger. cbn. destruct (handle_external env c w). reflexivity.
Qed.

Lemma run_call_bind {R T : Type} (c : rtosE R) (k : R -> itree furiE T)
    (fuel : nat) (w : World K) :
  run env (S fuel) (ITree.bind (call c) k) w =
  after (ext c (snd (handle_external env c w)))
        (run env fuel (k (snd (handle_external env c w))) (fst (handle_external env c w))).
Proof.
  unfold call. rewrite run_trigger_bind. cbn. destruct (handle_external env c w). reflexivity.
Qed.

Lemma run_check (ok : bool) (fuel : nat) (w : World K) :
  run env fuel (furi_check ok) w =
  if ok then stop (Returned tt) w fuel
  else match fuel with
       | O => stop Blocked w O
       | S fuel' => stop Crashed w fuel'
       end.
Proof. destruct ok; cbn [furi_check]; [apply run_ret|destruct fuel; reflexivity]. Qed.

Lemma run_check_bind {T : Type} (ok : bool) (k : unit -> itree furiE T)
    (fuel : nat) (w : World K) :
  run env fuel (ITree.bind (furi_check ok) k) w =
  if ok then run env fuel (k tt) w
  else match fuel with
       | O => stop Blocked w O
       | S fuel' => stop Crashed w fuel'
       end.
Proof.
  destruct ok; cbn [furi_check]; [apply run_bind_ret|destruct fuel; reflexivity].
Qed.

(** Every external call but [malloc] and [free] leaves the slots alone. *)
Lemma handle_plain {R : Type} (c : rtosE R) (w : World K) (k : K) (r : R) :
  kernel env c (os w) = (k, r) ->
  match c with
  | malloc _ | free _ => False
  | _ => True
  end ->
  handle_external env c w = (set_os w k, r).
Proof.
  intros H. unfold handle_external. rewrite H. destruct c; intros []; reflexivity.
Qed.

Lemma handle_malloc (size : Z) (w : World K) (k : K) (p : Z) :
  kernel env (malloc size) (os w) = (k, p) ->
  p <> NULL ->
  handle_external env (malloc size) w =
  (set_slots (set_os w k) (<[p := {| func := 0; context := 0 |}]> (slots w)), p).
Proof.
  intros H Hp. unfold handle_external. rewrite H.
  rewrite (proj2 (Z.eqb_neq p NULL) Hp). reflexivity.
Qed.

Lemma handle_free (p : Z) (w : World K) (k : K) (u : unit) :
  kernel env (free p) (os w) = (k, u) ->
  handle_external env (free p) w = (set_slots (set_os w k) (delete p (slots w)), u).
Proof. intros H. unfold handle_external. rewrite H. reflexivity. Qed.

(** A run never gains fuel. *)
Lemma fuel_left_le {R : Type} (fuel : nat) (t : itree furiE R) (w : World K) :
  (fuel_left (run env fuel t w) <= fuel)%nat.
Proof.
  revert t w. induction fuel as [|fuel IH]; intros t w; rewrite run_unfold.
  - destruct (observe t); cbn; lia.
  - destruct (observe t) as [r|t'|X e h]; cbn.
    + lia.
    + specialize (IH t' w). lia.
    + destruct (handle env e w) as [w' [x| |]]; cbn; try lia.
      specialize (IH (h x) w'). lia.
Qed.

End RunFacts.

(** Steps of a symbolic run: an external call whose answer is known, a
    [furi_check] whose condition is decided by the hypotheses, and the
    fuel a straight-line function needs. *)
Ltac answered H :=
  match goal with
  | |- context [run _ (S _) (ITree.bind (call ?c) _) ?w] =>
      rewrite run_call_bind, (handle_plain _ c w _ _ H I); cbn [fst snd]
  | |- context [run _ (S _) (call ?c) ?w] =>
      rewrite run_call, (handle_plain _ c w _ _ H I); cbn [fst snd]
  end.

Ltac decide_tests :=
  repeat match goal with
         | H : ?x <> ?y |- context [?x =? ?y] => rewrite (proj2 (Z.eqb_neq x y) H)
         | H : ?x = ?y |- context [?x =? ?y] => rewrite (proj2 (Z.eqb_eq x y) H)
         | H : ?x < ?y |- context [?x <? ?y] => rewrite (proj2 (Z.ltb_lt x y) H)
         end;
  cbn [negb andb].

Ltac checked := rewrite run_check_bind; decide_tests.

Tactic Notation "at_least" integer(n) "of" ident(fuel) :=
  do n (destruct fuel as [|fuel]; [exfalso; lia|]).

(** ** Reasoning about every run of a tree *)

Section Logic.
Context {K : Type} (env : Environment K) {St : Type} (obs : St -> entry -> option St).

Lemma replay_app (s : St) (tr1 tr2 : list entry) :
  replay obs s (tr1 ++ tr2) =
  match replay obs s tr1 with
  | Some s' => replay obs s' tr2
  | None => None
  end.
Proof.
  revert s. induction tr1 as [|x tr1 IH]; intros s; cbn; [reflexivity|].
  destruct (obs s x); [apply IH|reflexivity].
Qed.

Lemma safe_ret {R : Type} (x : R) (s : St) (w : World K) (Q : R -> St -> World K -> Prop) :
  Q x s w -> safe env obs (Ret x) s w Q.
Proof.
  intros HQ fuel. rewrite run_ret. exists s. split; [reflexivity|].
  cbn. intros y [= <-]. exact HQ.
Qed.

Lemma safe_mono {R : Type} (t : itree furiE R) (s : St) (w : World K)
    (Q Q' : R -> St -> World K -> Prop) :
  safe env obs t s w Q ->
  (forall x s' w', Q x s' w' -> Q' x s' w') ->
  safe env obs t s w Q'.
Proof.
  intros Ht HQ fuel. destruct (Ht fuel) as (s' & Hs & Hr).
  exists s'. split; [exact Hs|]. intros x Hx. apply HQ, Hr, Hx.
Qed.

Lemma safe_bind {R T : Type} (t : itree furiE R) (k : R -> itree furiE T)
    (s : St) (w : World K) (Q : R -> St -> World K -> Prop)
    (Q' : T -> St -> World K -> Prop) :
  safe env obs t s w Q ->
  (forall x s' w', Q x s' w' -> safe env obs (k x) s' w' Q') ->
  safe env obs (ITree.bind t k) s w Q'.
Proof.
  intros Ht Hk fuel. rewrite run_bind. unfold and_then.
  destruct (Ht fuel) as (s1 & Hs1 & Hr1).
  destruct (ended (run env fuel t w)) as [x| | |] eqn:E.
  - destruct (Hk x s1 _ (Hr1 x eq_refl) (fuel_left (run env fuel t w))) as (s2 & Hs2 & Hr2).
    exists s2. cbn. rewrite replay_app, Hs1. split; [exact Hs2|exact Hr2].
  - exists s1. cbn. split; [exact Hs1|discriminate].
  - exists s1. cbn. split; [exact Hs1|discriminate].
  - exists s1. cbn. split; [exact Hs1|discriminate].
Qed.

Lemma safe_trigger {R : Type} (e : furiE R) (s : St) (w : World K)
    (Q : R -> St -> World K -> Prop) :
  (forall x w', handle env e w = (w', Answer x) ->
                exists s', obs s (Ev e x) = Some s' /\ Q x s' w') ->
  safe env obs (ITree.trigger e) s w Q.
Proof.
  intros H [|fuel].
  - exists s. split; [reflexivity|]. cbn. discriminate.
  - rewrite run_trigger. destruct (handle env e w) as [w' [x| |]] eqn:E.
    + destruct (H x w' eq_refl) as (s' & Hs & HQ). exists s'. cbn. rewrite Hs.
      split; [reflexivity|]. intros y [= <-]. exact HQ.
    + exists s. split; [reflexivity|]. cbn. discriminate.
    + exists s. split; [reflexivity|]. cbn. discriminate.
Qed.

Lemma safe_call {R : Type} (c : rtosE R) (s : St) (w : World K)
    (Q : R -> St -> World K -> Prop) :
  (forall x w', handle_external env c w = (w', x) ->
                exists s', obs s (ext c x) = Some s' /\ Q x s' w') ->
  safe env obs (call c) s w Q.
Proof.
  intros H. apply safe_trigger. intros x w'. cbn.
  destruct (handle_external env c w) as [w1 r] eqn:E. intros [= <- <-].
  apply H. reflexivity.
Qed.

Lemma safe_check (ok : bool) (s : St) (w : World K) (Q : unit -> St -> World K -> Prop) :
  (ok = true -> Q tt s w) -> safe env obs (furi_check ok) s w Q.
Proof.
  intros H fuel. rewrite run_check. destruct ok.
  - exists s. split; [reflexivity|]. cbn. intros [] _. apply H. reflexivity.
  - exists s. destruct fuel; (split; [reflexivity|cbn; discriminate]).
Qed.

Lemma safe_crash {R : Type} (k : void -> itree furiE R) (s : St) (w : World K)
    (Q : R -> St -> World K -> Prop) :
  safe env obs (ITree.bind (ITree.trigger furi_crash) k) s w Q.
Proof.
  intros [|fuel]; exists s; (split; [reflexivity|cbn; discriminate]).
Qed.

(** The loop rule: an invariant of the state at the head of the loop. *)
Lemma safe_iter {R I : Type} (body : I -> itree furiE (I + R))
    (Inv : I -> St -> World K -> Prop) (Q : R -> St -> World K -> Prop) :
  (forall i s w, Inv i s w ->
     safe env obs (body i) s w
       (fun lr s' w' => match lr with
                        | inl i' => Inv i' s' w'
                        | inr x => Q x s' w'
                        end)) ->
  forall i s w, Inv i s w -> safe env obs (ITree.iter body i) s w Q.
Proof.
  intros Hbody i s w HI fuel. revert i s w HI.
  induction fuel as [fuel IH] using lt_wf_ind. intros i s w HI.
  rewrite run_iter. unfold and_then.
  destruct (Hbody i s w HI fuel) as (s1 & Hs1 & Hr1).
  pose proof (fuel_left_le env fuel (body i) w) as Hle.
  destruct (ended (run env fuel (body i) w)) as [[i'|x]| | |] eqn:E.
  - specialize (Hr1 _ eq_refl). cbn in Hr1.
    destruct (fuel_left (run env fuel (body i) w)) as [|f] eqn:Ef.
    + exists s1. cbn. rewrite app_nil_r. split; [exact Hs1|discriminate].
    + destruct (IH f ltac:(lia) i' s1 _ Hr1) as (s2 & Hs2 & Hr2).
      exists s2. cbn. rewrite replay_app, Hs1. split; [exact Hs2|exact Hr2].
  - specialize (Hr1 _ eq_refl). cbn in Hr1.
    exists s1. cbn. rewrite app_nil_r. split; [exact Hs1|].
    intros y [= <-]. exact Hr1.
  - exists s1. cbn. split; [exact Hs1|discriminate].
  - exists s1. cbn. split; [exact Hs1|discriminate].
  - exists s1. cbn. split; [exact Hs1|discriminate].
Qed.

End Logic.

Lemma replay_record (seen tr : list entry) :
  replay record seen tr = Some (seen ++ tr).
Proof.
  revert seen. induction tr as [|x tr IH]; intros seen; cbn.
  - rewrite app_nil_r. reflexivity.
  - rewrite IH, <- app_assoc. reflexivity.
Qed.

(** ** The operations, for every kernel *)

Section Claims.
Context {P : Platform} {K : Type} (env : Environment K).

(** C2, as amended.  Called from thread context with a handle and a
    period below [portMAX_DELAY], Start and Restart return.  Start answers
    Ok exactly when the kernel took the change-period command and
    ErrorResource otherwise, having made no other call.  Restart sends the
    reset command only after the change-period command was taken and
    answers Ok exactly when both were taken, ErrorResource otherwise; when
    it is the reset that was refused, the change-period command is already
    with the kernel.  Neither stops, releases or deletes the timer. *)
Theorem furi_timer_start_restart_status
    (fuel : nat) (w : World K) (instance ticks : Z)
    (k1 k2 k3 : K) (changed reset : Z) :
  (3 <= fuel)%nat ->
  instance <> NULL ->
  ticks < portMAX_DELAY ->
  kernel env furi_kernel_is_irq_or_masked (os w) = (k1, false) ->
  kernel env (xTimerChangePeriod instance ticks portMAX_DELAY) k1 = (k2, changed) ->
  kernel env (xTimerReset instance portMAX_DELAY) k2 = (k3, reset) ->
  let s := run env fuel (furi_timer_start instance ticks) w in
  let r := run env fuel (furi_timer_restart instance ticks) w in
  (ended s = Returned (if changed =? pdPASS then FuriStatusOk else FuriStatusErrorResource) /\
   trace s = [ext furi_kernel_is_irq_or_masked false;
              ext (xTimerChangePeriod instance ticks portMAX_DELAY) changed] /\
   final s = set_os w k2) /\
  (if changed =? pdPASS
   then ended r = Returned (if reset =? pdPASS then FuriStatusOk else FuriStatusErrorResource) /\
        trace r = [ext furi_kernel_is_irq_or_masked false;
                   ext (xTimerChangePeriod instance ticks portMAX_DELAY) changed;
                   ext (xTimerReset instance portMAX_DELAY) reset] /\
        final r = set_os w k3
   else ended r = Returned FuriStatusErrorResource /\
        trace r = [ext furi_kernel_is_irq_or_masked false;
                   ext (xTimerChangePeriod instance ticks portMAX_DELAY) changed] /\
        final r = set_os w k2).
Proof.
  intros Hfuel Hi Ht H1 H2 H3 s r. subst s r.
  unfold furi_timer_start, furi_timer_restart.
  at_least 3 of fuel. split.
  - answered H1. checked. checked. checked. answered H2.
    rewrite run_ret. cbn. auto.
  - answered H1. checked. checked. checked. answered H2.
    destruct (changed =? pdPASS).
    + answered H3. rewrite run_ret. cbn. auto.
    + rewrite run_ret. cbn. auto.
Qed.

(** C3.  When Allocate is called from thread context with a callback, the
    allocator hands out a block that is not null and is aligned to two
    bytes or more, and the kernel creates the timer, Allocate returns the
    kernel's handle; the ID it gave the kernel timer is the block's address
    with the flag bit set; masking the flag off gives back the address,
    which is not null, and the slot there holds the caller's function and
    context. *)
Theorem furi_timer_alloc_slot_not_null
    (fuel : nat) (w : World K) (f type ctx : Z)
    (k1 k2 k3 k4 k5 : K) (p thread_id name hTimer : Z) :
  (7 <= fuel)%nat ->
  f <> NULL ->
  kernel env furi_kernel_is_irq_or_masked (os w) = (k1, false) ->
  kernel env (malloc sizeof_TimerCallback_t) k1 = (k2, p) ->
  p <> NULL ->
  0 <= p < 2 ^ 32 ->
  Z.even p = true ->
  kernel env furi_thread_get_current_id k2 = (k3, thread_id) ->
  kernel env (furi_thread_get_appid thread_id) k3 = (k4, name) ->
  kernel env (xTimerCreate name portMAX_DELAY
                (if type =? FuriTimerTypeOnce then pdFALSE else pdTRUE)
                (set_alloc_flag p)) k4 = (k5, hTimer) ->
  hTimer <> NULL ->
  let r := run env fuel (furi_timer_alloc f type ctx) w in
  ended r = Returned hTimer /\
  trace r = [ext furi_kernel_is_irq_or_masked false;
             ext (malloc sizeof_TimerCallback_t) p;
             Ev (store_func p f) tt;
             Ev (store_context p ctx) tt;
             ext furi_thread_get_current_id thread_id;
             ext (furi_thread_get_appid thread_id) name;
             ext (xTimerCreate name portMAX_DELAY
                    (if type =? FuriTimerTypeOnce then pdFALSE else pdTRUE)
                    (set_alloc_flag p)) hTimer] /\
  clear_alloc_flag (set_alloc_flag p) = p /\
  clear_alloc_flag (set_alloc_flag p) <> NULL /\
  slots (final r) !! clear_alloc_flag (set_alloc_flag p) = Some {| func := f; context := ctx |} /\
  os (final r) = k5.
Proof.
  intros Hfuel Hf H1 H2 Hp Hr He H3 H4 H5 Hh r. subst r.
  rewrite (clear_set_aligned p Hr He).
  unfold furi_timer_alloc. at_least 7 of fuel.
  answered H1. checked.
  rewrite run_call_bind, (handle_malloc env _ (set_os w k1) _ _ H2 Hp). cbn [fst snd].
  rewrite run_trigger_bind. cbn [handle slots set_slots set_os].
  rewrite lookup_insert_eq. cbn [func context].
  rewrite run_trigger_bind. cbn [handle slots set_slots set_os].
  rewrite lookup_insert_eq. cbn [func context].
  answered H3. answered H4. answered H5. checked.
  rewrite run_ret. cbn [ended trace final after stop slots set_slots set_os os].
  rewrite lookup_insert_eq. auto 10.
Qed.
(** C5.  The dispatch trampoline reads the timer's ID and masks the flag
    bit off.  When that leaves the null pointer, the trampoline returns
    having done nothing else: no application function is called and
    nothing halts.  When it leaves the address of a slot, the trampoline
    returns after calling the slot's function once, with the slot's
    context.  So the application is called exactly when the recovered
    pointer is not null. *)
Theorem TimerCallback_calls_iff_slot_not_null
    (fuel : nat) (w : World K) (hTimer : Z) (k1 k2 : K) (id name : Z) :
  (7 <= fuel)%nat ->
  kernel env (pvTimerGetTimerID hTimer) (os w) = (k1, id) ->
  kernel env (pcTimerGetName hTimer) k1 = (k2, name) ->
  let r := run env fuel (TimerCallback hTimer) w in
  (clear_alloc_flag id = NULL ->
     ended r = Returned tt /\
     trace r = [ext (pvTimerGetTimerID hTimer) id] /\
     user_calls (trace r) = [] /\
     final r = set_os w k1) /\
  (clear_alloc_flag id <> NULL ->
     forall s, slots w !! clear_alloc_flag id = Some s ->
     ended r = Returned tt /\
     user_calls (trace r) = [(func s, context s)]).
Proof.
  intros Hfuel H1 H2 r. subst r. unfold TimerCallback. at_least 7 of fuel.
  answered H1. split.
  - intros Hnull. rewrite Hnull. cbn [Z.eqb NULL negb]. rewrite run_ret. cbn. auto.
  - intros Hslot s Hs. decide_tests. answered H2.
    rewrite run_trigger_bind. cbn [handle].
    rewrite run_trigger_bind. cbn [handle slots set_current_timer_name set_os]. rewrite Hs.
    rewrite run_trigger_bind. cbn [handle slots set_current_timer_name set_os]. rewrite Hs.
    rewrite run_trigger_bind. cbn [handle slots os current_timer_name set_current_timer_name set_os].
    destruct (application env (func s) (context s) name (slots w, k2)) as [m k3].
    rewrite run_trigger. cbn. auto.
Qed.

(** C7.  Given a function, PendingCallback asks whether the caller is in
    interrupt or masked-interrupt context and submits the call through
    [xTimerPendFunctionCallFromISR], which takes no timeout, if so, and
    through [xTimerPendFunctionCall] with the timeout [FuriWaitForever]
    otherwise.  It returns when the kernel took the call and halts the
    process when it did not; no status reaches the caller. *)
Theorem furi_timer_pending_callback_routes
    (fuel : nat) (w : World K) (callback ctx arg : Z)
    (k1 k2 : K) (in_irq : bool) (ret : Z) :
  (3 <= fuel)%nat ->
  callback <> NULL ->
  kernel env furi_kernel_is_irq_or_masked (os w) = (k1, in_irq) ->
  let submitted :=
    if in_irq then xTimerPendFunctionCallFromISR callback ctx arg NULL
    else xTimerPendFunctionCall callback ctx arg FuriWaitForever in
  kernel env submitted k1 = (k2, ret) ->
  let r := run env fuel (furi_timer_pending_callback callback ctx arg) w in
  trace r = [ext furi_kernel_is_irq_or_masked in_irq; ext submitted ret] /\
  ended r = (if ret =? pdPASS then Returned tt else Crashed) /\
  final r = set_os w k2.
Proof.
  intros Hfuel Hc H1 submitted H2 r. subst r submitted.
  unfold furi_timer_pending_callback. at_least 3 of fuel.
  checked. answered H1.
  destruct in_irq; answered H2; rewrite run_check;
    destruct (ret =? pdPASS); cbn; auto.
Qed.

(** C8.  Called from thread context, SetDaemonPriority halts the process
    when the daemon task has not been started, whatever the level.  With
    the daemon started, level Normal sets the daemon task's priority to
    [configTIMER_TASK_PRIORITY], level Elevated sets it to
    [configMAX_PRIORITIES - 1], and any other level halts the process
    without setting a priority. *)
Theorem furi_timer_set_thread_priority_levels
    (fuel : nat) (w : World K) (priority : Z) (k1 k2 k3 k4 : K) (task : Z) :
  (3 <= fuel)%nat ->
  kernel env furi_kernel_is_irq_or_masked (os w) = (k1, false) ->
  kernel env xTimerGetTimerDaemonTaskHandle k1 = (k2, task) ->
  kernel env (vTaskPrioritySet task configTIMER_TASK_PRIORITY) k2 = (k3, tt) ->
  kernel env (vTaskPrioritySet task (configMAX_PRIORITIES - 1)) k2 = (k4, tt) ->
  0 < configMAX_PRIORITIES <= 2 ^ 32 ->
  let r := run env fuel (furi_timer_set_thread_priority priority) w in
  let asked := [ext furi_kernel_is_irq_or_masked false;
                ext xTimerGetTimerDaemonTaskHandle task] in
  (task = NULL -> ended r = Crashed /\ trace r = asked) /\
  (task <> NULL -> priority = FuriTimerThreadPriorityNormal ->
     ended r = Returned tt /\
     trace r = asked ++ [ext (vTaskPrioritySet task configTIMER_TASK_PRIORITY) tt] /\
     final r = set_os w k3) /\
  (task <> NULL -> priority <> FuriTimerThreadPriorityNormal ->
     priority = FuriTimerThreadPriorityElevated ->
     ended r = Returned tt /\
     trace r = asked ++ [ext (vTaskPrioritySet task (configMAX_PRIORITIES - 1)) tt] /\
     final r = set_os w k4) /\
  (priority <> FuriTimerThreadPriorityNormal ->
     priority <> FuriTimerThreadPriorityElevated ->
     ended r = Crashed /\ trace r = asked).
Proof.
  intros Hfuel H1 H2 H3 H4 Hmax r asked. subst r asked.
  unfold furi_timer_set_thread_priority. at_least 3 of fuel.
  answered H1. checked. answered H2.
  rewrite (u32_small (configMAX_PRIORITIES - 1)) by lia.
  repeat split.
  - checked. cbn. reflexivity.
  - checked. cbn. reflexivity.
  - checked. answered H3. cbn. reflexivity.
  - checked. answered H3. cbn. reflexivity.
  - checked. answered H3. cbn. reflexivity.
  - checked. answered H4. cbn. reflexivity.
  - checked. answered H4. cbn. reflexivity.
  - checked. answered H4. cbn. reflexivity.
  - rewrite run_check_bind. destruct (negb (task =? NULL)); [|reflexivity].
    decide_tests. reflexivity.
  - rewrite run_check_bind. destruct (negb (task =? NULL)); [|reflexivity].
    decide_tests. reflexivity.
Qed.

(** *** The diagnostic name *)

Lemma handle_external_name {R : Type} (c : rtosE R) (w w' : World K) (x : R) :
  handle_external env c w = (w', x) -> current_timer_name w' = current_timer_name w.
Proof.
  unfold handle_external. destruct (kernel env c (os w)) as [k r].
  destruct c; try (intros [= <- <-]; reflexivity).
  destruct (r =? NULL); intros [= <- <-]; reflexivity.
Qed.

Lemma keeps_name_ret {R : Type} (x : R) : keeps_name env (Ret x).
Proof. intros w. apply safe_ret. reflexivity. Qed.

Lemma keeps_name_bind {R T : Type} (t : itree furiE R) (k : R -> itree furiE T) :
  keeps_name env t -> (forall x, keeps_name env (k x)) -> keeps_name env (ITree.bind t k).
Proof.
  intros Ht Hk w. eapply safe_bind; [apply Ht|].
  intros x [] w' Hw'. cbn in Hw'. eapply safe_mono; [apply Hk|].
  intros y s' w'' Hw''. cbn in *. congruence.
Qed.

Lemma keeps_name_call {R : Type} (c : rtosE R) : keeps_name env (call c).
Proof.
  intros w. apply safe_call. intros x w' H. exists tt. split; [reflexivity|].
  eapply handle_external_name, H.
Qed.

Lemma keeps_name_check (ok : bool) : keeps_name env (furi_check ok).
Proof. intros w. apply safe_check. reflexivity. Qed.

Lemma keeps_name_crash {R : Type} (k : void -> itree furiE R) :
  keeps_name env (ITree.bind (ITree.trigger furi_crash) k).
Proof. intros w. apply safe_crash. Qed.

Lemma keeps_name_iter {R I : Type} (body : I -> itree furiE (I + R)) (i : I) :
  (forall j, keeps_name env (body j)) -> keeps_name env (ITree.iter body i).
Proof.
  intros Hbody w.
  apply (safe_iter env unobserved body
           (fun _ _ w' => current_timer_name w' = current_timer_name w)
           (fun _ _ w' => current_timer_name w' = current_timer_name w));
    [|reflexivity].
  intros j [] w1 Hw1. eapply safe_mono; [apply Hbody|].
  intros [j'|x] s' w2 Hw2; cbn in *; congruence.
Qed.

Ltac keeps_name_steps :=
  repeat first
    [ apply keeps_name_ret
    | apply keeps_name_call
    | apply keeps_name_check
    | apply keeps_name_crash
    | apply keeps_name_bind; [|intros ?]
    | match goal with
      | |- keeps_name _ (if ?b then _ else _) => destruct b
      end ].

Lemma keeps_name_is_running (instance : Z) : keeps_name env (furi_timer_is_running instance).
Proof. unfold furi_timer_is_running. keeps_name_steps. Qed.

Lemma keeps_name_perform (c : api_call) : keeps_name env (perform c).
Proof.
  destruct c; cbn [perform].
  - unfold furi_timer_alloc. keeps_name_steps.
    + intros w. apply safe_trigger. intros ans w' H. exists tt. split; [reflexivity|].
      cbn in H. destruct (slots w !! _); inversion H; reflexivity.
    + intros w. apply safe_trigger. intros ans w' H. exists tt. split; [reflexivity|].
      cbn in H. destruct (slots w !! _); inversion H; reflexivity.
  - unfold furi_timer_free. keeps_name_steps.
    apply keeps_name_iter. intros []. unfold wait_inactive_step.
    apply keeps_name_bind; [apply keeps_name_is_running|intros ?]. keeps_name_steps.
  - unfold furi_timer_start. keeps_name_steps.
  - unfold furi_timer_restart. keeps_name_steps.
  - unfold furi_timer_stop. keeps_name_steps.
  - apply keeps_name_bind; [apply keeps_name_is_running|intros ?]. keeps_name_steps.
  - unfold furi_timer_get_expire_time. keeps_name_steps.
  - unfold furi_timer_pending_callback. keeps_name_steps.
  - unfold furi_timer_set_thread_priority. keeps_name_steps.
  - unfold furi_timer_get_current_name. keeps_name_steps.
    intros w. apply safe_trigger. intros ans w' H. exists tt. split; [reflexivity|].
    cbn in H. inversion H. reflexivity.
Qed.

Lemma unobserved_any {R : Type} (t : itree furiE R) (w : World K) :
  safe env unobserved t tt w (fun _ _ _ => True).
Proof.
  intros fuel. exists tt. split; [|trivial].
  induction (trace (run env fuel t w)) as [|x tr IH]; [reflexivity|exact IH].
Qed.

Lemma TimerCallback_leaves_name (hTimer : Z) (w : World K) :
  safe env unobserved (TimerCallback hTimer) tt w
    (fun _ _ w' => current_timer_name w' = NULL \/
                   current_timer_name w' = current_timer_name w).
Proof.
  unfold TimerCallback.
  eapply safe_bind; [apply keeps_name_call|]. intros callb [] w1 Hw1. cbn in Hw1.
  destruct (negb (clear_alloc_flag callb =? NULL)).
  - do 5 (eapply safe_bind; [apply unobserved_any|intros ? [] ? _]).
    apply safe_trigger. intros [] wf H. exists tt. split; [reflexivity|].
    cbn in H. inversion H. left. reflexivity.
  - apply safe_ret. right. exact Hw1.
Qed.

Lemma act_returns_without_name (a : activity) (fuel : nat) (w : World K) (x : unit) :
  current_timer_name w = NULL ->
  ended (run env fuel (act a) w) = Returned x ->
  current_timer_name (final (run env fuel (act a) w)) = NULL.
Proof.
  intros Hw Hx. destruct a as [c|hTimer]; cbn [act] in *.
  - destruct (keeps_name_perform c w fuel) as (s' & _ & H).
    rewrite (H x Hx). exact Hw.
  - destruct (TimerCallback_leaves_name hTimer w fuel) as (s' & _ & H).
    destruct (H x Hx) as [H'|H']; congruence.
Qed.

Lemma schedule_without_name (fuel : nat) (todo : list activity) (w w' : World K) :
  current_timer_name w = NULL ->
  schedule env fuel todo w = Some w' ->
  current_timer_name w' = NULL.
Proof.
  revert w. induction todo as [|a todo IH]; intros w Hw; cbn [schedule].
  - intros [= <-]. exact Hw.
  - destruct (ended (run env fuel (act a) w)) as [[]| | |] eqn:E; try discriminate.
    apply IH. apply (act_returns_without_name a fuel w tt Hw E).
Qed.

(** C6.  When the trampoline is dispatched for a timer whose ID, with the
    flag bit masked off, is the address of a slot, it writes the timer's
    kernel name to [current_timer_name] before it calls the slot's
    function, so that the function runs with that name readable, and
    writes null to it as soon as the function has returned.
    [furi_timer_get_current_name] returns the variable as it is.  Nothing
    else writes it: starting from its initial null, it is null again
    whenever an exposed operation or a dispatch has returned. *)
Theorem current_timer_name_set_during_dispatch
    (fuel : nat) (w : World K) (hTimer : Z) (k1 k2 : K) (id name : Z)
    (s : TimerCallback_t) :
  (7 <= fuel)%nat ->
  kernel env (pvTimerGetTimerID hTimer) (os w) = (k1, id) ->
  kernel env (pcTimerGetName hTimer) k1 = (k2, name) ->
  clear_alloc_flag id <> NULL ->
  slots w !! clear_alloc_flag id = Some s ->
  let r := run env fuel (TimerCallback hTimer) w in
  let called := application env (func s) (context s) name (slots w, k2) in
  (ended r = Returned tt /\
   trace r = [ext (pvTimerGetTimerID hTimer) id;
              ext (pcTimerGetName hTimer) name;
              Ev (write_current_timer_name name) tt;
              Ev (load_func (clear_alloc_flag id)) (func s);
              Ev (load_context (clear_alloc_flag id)) (context s);
              Ev (invoke (func s) (context s)) tt;
              Ev (write_current_timer_name NULL) tt] /\
   final r = {| current_timer_name := NULL; slots := fst called; os := snd called |}) /\
  (forall (fuel' : nat) (w' : World K),
     ended (run env (S fuel') furi_timer_get_current_name w')
     = Returned (current_timer_name w')) /\
  (forall (fuel' : nat) (todo : list activity) (k : K) (w' : World K),
     schedule env fuel' todo (initial k) = Some w' -> current_timer_name w' = NULL).
Proof.
  intros Hfuel H1 H2 Hslot Hs r called. subst r called. split.
  - unfold TimerCallback. at_least 7 of fuel.
    answered H1. decide_tests. answered H2.
    rewrite run_trigger_bind. cbn [handle].
    rewrite run_trigger_bind. cbn [handle slots set_current_timer_name set_os]. rewrite Hs.
    rewrite run_trigger_bind. cbn [handle slots set_current_timer_name set_os]. rewrite Hs.
    rewrite run_trigger_bind.
    cbn [handle slots os current_timer_name set_current_timer_name set_os].
    destruct (application env (func s) (context s) name (slots w, k2)) as [m k3].
    rewrite run_trigger. cbn. auto.
  - split.
    + intros fuel' w'. unfold furi_timer_get_current_name. rewrite run_trigger. reflexivity.
    + intros fuel' todo k w'. apply schedule_without_name. reflexivity.
Qed.

(** *** Interrupt context *)

(** C4, as amended.  Called from interrupt or masked-interrupt context,
    every exposed operation other than PendingCallback and
    [furi_timer_get_current_name] halts the process at its entry check:
    the context query is the only thing it has done.  PendingCallback
    given a function goes on to submit the call from that context, and
    [furi_timer_get_current_name], which makes no context check, returns
    the name. *)
Theorem interrupt_context_refused_except_by_two
    (c : api_call) (fuel : nat) (w : World K) (k1 : K) :
  (3 <= fuel)%nat ->
  kernel env furi_kernel_is_irq_or_masked (os w) = (k1, true) ->
  let r := run env fuel (perform c) w in
  (is_pending_callback c = false -> is_get_current_name c = false ->
     ended r = Crashed /\
     trace r = [ext furi_kernel_is_irq_or_masked true] /\
     final r = set_os w k1) /\
  (is_get_current_name c = true ->
     ended r = Returned tt /\
     trace r = [Ev read_current_timer_name (current_timer_name w)] /\
     final r = w) /\
  (forall (callback ctx arg : Z) (k2 : K),
     c = Op_pending_callback callback ctx arg ->
     callback <> NULL ->
     kernel env (xTimerPendFunctionCallFromISR callback ctx arg NULL) k1 = (k2, pdPASS) ->
     ended r = Returned tt /\
     trace r = [ext furi_kernel_is_irq_or_masked true;
                ext (xTimerPendFunctionCallFromISR callback ctx arg NULL) pdPASS] /\
     final r = set_os w k2).
Proof.
  intros Hfuel H1 r. subst r. at_least 3 of fuel.
  destruct c; cbn [perform is_pending_callback is_get_current_name];
    (split; [intros Hp Hg; try discriminate|split; [intros Hg; try discriminate|]]);
    try (intros callback' ctx' arg' k2 [=]).
  - rewrite run_bind. unfold furi_timer_alloc. answered H1. checked. cbn. auto.
  - unfold furi_timer_free. answered H1. checked. cbn. auto.
  - rewrite run_bind. unfold furi_timer_start. answered H1. checked. cbn. auto.
  - rewrite run_bind. unfold furi_timer_restart. answered H1. checked. cbn. auto.
  - rewrite run_bind. unfold furi_timer_stop. answered H1. checked. cbn. auto.
  - rewrite run_bind. unfold furi_timer_is_running. answered H1. checked. cbn. auto.
  - rewrite run_bind. unfold furi_timer_get_expire_time. answered H1. checked. cbn. auto.
  - subst. intros Hc H2. unfold furi_timer_pending_callback.
    checked. answered H1. answered H2. rewrite run_check, Z.eqb_refl. cbn. auto.
  - unfold furi_timer_set_thread_priority. answered H1. checked. cbn. auto.
  - rewrite run_bind. unfold furi_timer_get_current_name. rewrite run_trigger. cbn.
    destruct w; auto.
Qed.

(** *** Releasing a timer *)

Lemma handle_external_os {R : Type} (c : rtosE R) (w w' : World K) (x : R) :
  handle_external env c w = (w', x) -> kernel env c (os w) = (os w', x).
Proof.
  unfold handle_external. destruct (kernel env c (os w)) as [k r].
  destruct c; try (intros [= <- <-]; reflexivity).
  destruct (r =? NULL); intros [= <- <-]; reflexivity.
Qed.

Lemma replay_watch (instance slot : Z) (ph : phase) (seen tr : list entry) :
  replay (watch instance slot) (ph, seen) tr =
  match protocol instance slot ph tr with
  | Some ph' => Some (ph', seen ++ tr)
  | None => None
  end.
Proof.
  unfold protocol. revert ph seen. induction tr as [|x tr IH]; intros ph seen; cbn.
  - rewrite app_nil_r. reflexivity.
  - unfold watch at 1. cbn [fst snd]. destruct (advance instance slot ph x) as [ph'|]; [|reflexivity].
    rewrite IH, <- app_assoc. reflexivity.
Qed.

Lemma watch_call {R : Type} (instance slot : Z) (c : rtosE R) (ph : phase)
    (seen : list entry)
    (w : World K) (Q : R -> phase * list entry -> World K -> Prop) :
  (forall x w', kernel env c (os w) = (os w', x) ->
     exists ph', advance instance slot ph (ext c x) = Some ph' /\
                 Q x (ph', seen ++ [ext c x]) w') ->
  safe env (watch instance slot) (call c) (ph, seen) w Q.
Proof.
  intros H. apply safe_call. intros x w' Hx.
  destruct (H x w' (handle_external_os c w w' x Hx)) as (ph' & Hph & HQ).
  exists (ph', seen ++ [ext c x]). split; [|exact HQ].
  unfold watch. cbn [fst snd]. rewrite Hph. reflexivity.
Qed.

Section Release.

(** What the release protocol relies on from the kernel.  [executing k h]
    says that in state [k] the daemon is inside the callback of timer [h].
    A timer is reported inactive only once no callback of it is in flight,
    and releasing memory or deleting the timer starts no callback. *)
Variable executing : K -> Z -> bool.

Hypothesis inactive_quiescent :
  forall (k k' : K) (h a : Z),
    kernel env (xTimerIsTimerActive h) k = (k', a) -> u32 a = 0 -> executing k' h = false.

Hypothesis free_keeps_quiescent :
  forall (k k' : K) (h p : Z) (u : unit),
    executing k h = false -> kernel env (free p) k = (k', u) -> executing k' h = false.

Hypothesis delete_keeps_quiescent :
  forall (k k' : K) (h wait r : Z),
    executing k h = false -> kernel env (xTimerDelete h wait) k = (k', r) ->
    executing k' h = false.

Lemma furi_timer_is_running_polls (instance slot : Z) (seen : list entry) (w : World K) :
  safe env (watch instance slot) (furi_timer_is_running instance) (Stopping, seen) w
    (fun running s w' =>
       exists active,
         running = u32 active /\
         s = (if u32 active =? 0 then Quiet else Busy, seen ++ poll instance active) /\
         (u32 active = 0 -> executing (os w') instance = false)).
Proof.
  unfold furi_timer_is_running.
  apply safe_bind with
    (Q := fun x s (_ : World K) => s = (Stopping, seen ++ [ext furi_kernel_is_irq_or_masked x])).
  { apply watch_call. intros x w' _. exists Stopping. split; reflexivity. }
  intros in_irq s1 w1 ->.
  apply safe_bind with
    (Q := fun _ s (_ : World K) => s = (Stopping, seen ++ [ext furi_kernel_is_irq_or_masked false])).
  { apply safe_check. destruct in_irq; [discriminate|reflexivity]. }
  intros _ s2 w2 ->.
  apply safe_bind with
    (Q := fun _ s (_ : World K) => s = (Stopping, seen ++ [ext furi_kernel_is_irq_or_masked false])).
  { apply safe_check. reflexivity. }
  intros _ s3 w3 ->.
  apply safe_bind with
    (Q := fun x s w' =>
            s = (if u32 x =? 0 then Quiet else Busy, seen ++ poll instance x) /\
            (u32 x = 0 -> executing (os w') instance = false)).
  { apply watch_call. intros x w' Hk.
    exists (if u32 x =? 0 then Quiet else Busy). split.
    - cbn. rewrite Z.eqb_refl. reflexivity.
    - split; [rewrite <- app_assoc; reflexivity|].
      intros Hx. eapply inactive_quiescent; eassumption. }
  intros active s4 w4 [-> Hq]. apply safe_ret. exists active. auto.
Qed.

Lemma wait_inactive (instance slot : Z) (seen : list entry) (w : World K) :
  safe env (watch instance slot) (ITree.iter (wait_inactive_step instance) tt)
    (Stopping, seen) w
    (fun _ s w' =>
       exists busy last,
         s = (Quiet, seen ++ flat_map (busy_turn instance) busy ++ poll instance last) /\
         Forall (fun a => u32 a <> 0) busy /\ u32 last = 0 /\
         executing (os w') instance = false).
Proof.
  apply (safe_iter env (watch instance slot) (wait_inactive_step instance)
           (fun _ s _ => exists busy,
              s = (Stopping, seen ++ flat_map (busy_turn instance) busy) /\
              Forall (fun a => u32 a <> 0) busy));
    [|exists []; rewrite app_nil_r; auto].
  intros [] s1 w1 (busy & -> & Hbusy). unfold wait_inactive_step.
  eapply safe_bind; [apply furi_timer_is_running_polls|].
  intros running s2 w2 (active & -> & -> & Hq).
  destruct (Z.eqb_spec (u32 active) 0) as [Hz|Hnz]; cbn [negb].
  - apply safe_ret. exists busy, active. rewrite <- app_assoc. auto.
  - apply safe_bind with
      (Q := fun _ s (_ : World K) =>
              s = (Stopping, seen ++ flat_map (busy_turn instance) (busy ++ [active]))).
    { apply watch_call. intros [] w' _. exists Stopping. split; [reflexivity|].
      rewrite flat_map_app. cbn [flat_map]. unfold busy_turn at 3.
      rewrite app_nil_r, <- !app_assoc. reflexivity. }
    intros _ s3 w3 ->. apply safe_ret. exists (busy ++ [active]). split; [reflexivity|].
    apply Forall_app. split; [exact Hbusy|]. constructor; [exact Hnz|constructor].
Qed.

(** Every run of [furi_timer_free] on a timer whose ID carries the flag
    follows the release protocol, and one that returns has gone through
    all of it and leaves no callback of the timer in flight. *)
Lemma furi_timer_free_owned (w : World K) (instance : Z) (k1 k2 : K)
    (in_irq : bool) (id : Z) :
  kernel env furi_kernel_is_irq_or_masked (os w) = (k1, in_irq) ->
  kernel env (pvTimerGetTimerID instance) k1 = (k2, id) ->
  alloc_flag id = true ->
  safe env (watch instance (clear_alloc_flag id)) (furi_timer_free instance) (Entered, []) w
    (fun _ s w' =>
       fst s = Deleted /\
       (exists busy last,
          snd s = release_trace instance id busy last /\
          Forall (fun a => u32 a <> 0) busy /\ u32 last = 0) /\
       executing (os w') instance = false).
Proof.
  intros H1 H2 Hflag. unfold furi_timer_free.
  apply safe_bind with
    (Q := fun x s w' =>
            s = (Entered, [ext furi_kernel_is_irq_or_masked x]) /\ x = in_irq /\ os w' = k1).
  { apply watch_call. intros x w' Hk. exists Entered. rewrite H1 in Hk.
    injection Hk as <- <-. auto. }
  intros x s1 w1 (-> & -> & Hw1).
  apply safe_bind with
    (Q := fun _ s w' =>
            s = (Entered, [ext furi_kernel_is_irq_or_masked false]) /\ os w' = k1).
  { apply safe_check. destruct in_irq; [discriminate|auto]. }
  intros _ s2 w2 (-> & Hw2).
  apply safe_bind with
    (Q := fun _ s w' =>
            s = (Entered, [ext furi_kernel_is_irq_or_masked false]) /\ os w' = k1).
  { apply safe_check. auto. }
  intros _ s3 w3 (-> & Hw3).
  apply safe_bind with
    (Q := fun x s (_ : World K) =>
            s = (Entered, [ext furi_kernel_is_irq_or_masked false;
                           ext (pvTimerGetTimerID instance) x]) /\ x = id).
  { apply watch_call. intros x w' Hk. exists Entered. rewrite Hw3, H2 in Hk.
    injection Hk as _ <-. auto. }
  intros x s4 w4 (-> & ->). rewrite Hflag.
  apply safe_bind with
    (Q := fun _ s w' =>
            exists busy last,
              s = (Released,
                   [ext furi_kernel_is_irq_or_masked false;
                    ext (pvTimerGetTimerID instance) id;
                    ext (xTimerStop instance portMAX_DELAY) pdPASS]
                   ++ flat_map (busy_turn instance) busy ++ poll instance last
                   ++ [ext (free (clear_alloc_flag id)) tt]) /\
              Forall (fun a => u32 a <> 0) busy /\ u32 last = 0 /\
              executing (os w') instance = false).
  { apply safe_bind with
      (Q := fun x s (_ : World K) =>
              s = (if x =? pdPASS then Stopping else Entered,
                   [ext furi_kernel_is_irq_or_masked false;
                    ext (pvTimerGetTimerID instance) id;
                    ext (xTimerStop instance portMAX_DELAY) x])).
    { apply watch_call. intros x w' _. exists (if x =? pdPASS then Stopping else Entered).
      split; [|reflexivity]. cbn. rewrite Z.eqb_refl. reflexivity. }
    intros stopped s5 w5 ->.
    apply safe_bind with
      (Q := fun _ s (_ : World K) =>
              s = (Stopping,
                   [ext furi_kernel_is_irq_or_masked false;
                    ext (pvTimerGetTimerID instance) id;
                    ext (xTimerStop instance portMAX_DELAY) pdPASS])).
    { apply safe_check. intros Hs. rewrite Hs. apply Z.eqb_eq in Hs. subst stopped.
      reflexivity. }
    intros _ s6 w6 ->.
    eapply safe_bind; [apply wait_inactive|].
    intros _ s7 w7 (busy & last & -> & Hbusy & Hlast & Hq).
    apply watch_call. intros [] w' Hk. exists Released.
    split; [cbn; rewrite Z.eqb_refl; reflexivity|].
    exists busy, last. rewrite <- !app_assoc. cbn [app]. repeat split; auto.
    eapply free_keeps_quiescent; eassumption. }
  intros _ s8 w8 (busy & last & -> & Hbusy & Hlast & Hq).
  apply safe_bind with
    (Q := fun x s w' =>
            s = (Deleted,
                 [ext furi_kernel_is_irq_or_masked false;
                  ext (pvTimerGetTimerID instance) id;
                  ext (xTimerStop instance portMAX_DELAY) pdPASS]
                 ++ flat_map (busy_turn instance) busy ++ poll instance last
                 ++ [ext (free (clear_alloc_flag id)) tt;
                     ext (xTimerDelete instance portMAX_DELAY) x]) /\
            executing (os w') instance = false).
  { apply watch_call. intros x w' Hk. exists Deleted.
    split; [cbn; rewrite Z.eqb_refl; reflexivity|].
    split; [|eapply delete_keeps_quiescent; eassumption].
    rewrite <- !app_assoc. reflexivity. }
  intros deleted s9 w9 (-> & Hq9).
  apply safe_check. intros Hd. apply Z.eqb_eq in Hd. subst deleted.
  cbn [fst snd]. split; [reflexivity|]. split; [|exact Hq9].
  exists busy, last. auto.
Qed.
(** C1.  Take a timer whose ID carries the ownership bit, and a kernel
    that reports a timer inactive only once no callback of it is in
    flight.  In every run of Free on it, however far it gets, the block
    at the ID with the bit masked off, and no other, is released, once and
    only straight after a poll that found the timer inactive; the polls
    come after the stop command for the timer was accepted, with a yield
    after each poll that found the timer running; and that kernel timer,
    and no other, is deleted only after the slot was released.  A run
    that returns has done all of this and nothing else: its trace is the
    entry checks, the stop, the polls, the release of the slot and the
    delete; and at its return no callback of the timer is executing. *)
Theorem furi_timer_free_waits_for_inactive
    (fuel : nat) (w : World K) (instance : Z) (k1 k2 : K) (in_irq : bool) (id : Z) :
  kernel env furi_kernel_is_irq_or_masked (os w) = (k1, in_irq) ->
  kernel env (pvTimerGetTimerID instance) k1 = (k2, id) ->
  alloc_flag id = true ->
  let r := run env fuel (furi_timer_free instance) w in
  (exists ph, protocol instance (clear_alloc_flag id) Entered (trace r) = Some ph /\
              (ended r = Returned tt -> ph = Deleted)) /\
  (ended r = Returned tt -> executing (os (final r)) instance = false) /\
  (ended r = Returned tt ->
     exists busy last,
       trace r = release_trace instance id busy last /\
       Forall (fun a => u32 a <> 0) busy /\ u32 last = 0).
Proof.
  intros H1 H2 Hflag r. subst r.
  destruct (furi_timer_free_owned w instance k1 k2 in_irq id H1 H2 Hflag fuel)
    as ([ph seen] & Hs & Hr).
  rewrite replay_watch in Hs.
  destruct (protocol instance (clear_alloc_flag id) Entered
              (trace (run env fuel (furi_timer_free instance) w)))
    as [ph'|]; [|discriminate].
  injection Hs as -> <-. split; [|split].
  - exists ph. split; [reflexivity|]. intros E. apply (Hr tt E).
  - intros E. apply (Hr tt E).
  - intros E. destruct (Hr tt E) as (_ & (busy & last & Hseen & Hbusy & Hlast) & _).
    exists busy, last. auto.
Qed.


End Release.

Lemma furi_timer_alloc_flags_id (f type ctx : Z) (w : World K) :
  safe env flagged (furi_timer_alloc f type ctx) tt w (fun _ _ _ => True).
Proof.
  unfold furi_timer_alloc.
  do 3 (eapply safe_bind with (Q := fun _ _ _ => True);
        [first [apply safe_call|apply safe_check|apply safe_trigger];
         try (intros ? ? _; exists tt; split; reflexivity); trivial
        |intros ? [] ? _]).
  do 4 (eapply safe_bind with (Q := fun _ _ _ => True);
        [first [apply safe_call|apply safe_check|apply safe_trigger];
         try (intros ? ? _; exists tt; split; reflexivity); trivial
        |intros ? [] ? _]).
  eapply safe_bind with (Q := fun _ _ _ => True).
  { apply safe_call. intros ? ? _. exists tt. split; [|trivial].
    cbn. rewrite alloc_flag_set. reflexivity. }
  intros ? [] ? _.
  eapply safe_bind with (Q := fun _ _ _ => True); [apply safe_check; trivial|].
  intros ? [] ? _. apply safe_ret. trivial.
Qed.

Lemma wait_inactive_returns (instance : Z) (k : K) (busy : list Z) (last : Z) (k' : K) :
  instance <> NULL ->
  waits env instance k busy last k' ->
  forall (fuel : nat) (w : World K),
    os w = k ->
    (4 * length busy + 2 <= fuel)%nat ->
    run env fuel (ITree.iter (wait_inactive_step instance) tt) w =
    {| ended := Returned tt;
       final := set_os w k';
       trace := flat_map (busy_turn instance) busy ++ poll instance last;
       fuel_left := fuel - (4 * length busy + 2) |}.
Proof.
  intros Hi Hwaits. induction Hwaits as [k k1 k2 last Hirq Hact Hlast
                                       |k k1 k2 k3 active busy last k' Hirq Hact Hactive Hdelay _ IH];
    intros fuel w Hw Hfuel; subst k.
  - cbn [length] in Hfuel. at_least 2 of fuel.
    rewrite run_iter. unfold wait_inactive_step, furi_timer_is_running.
    rewrite run_bind. answered Hirq. checked. checked. answered Hact.
    rewrite run_ret. unfold and_then. cbn [ended after stop final fuel_left trace].
    rewrite Hlast. cbn [Z.eqb negb]. rewrite run_ret. cbn.
    rewrite Nat.sub_0_r. reflexivity.
  - cbn [length] in Hfuel. at_least 4 of fuel.
    rewrite run_iter. remember (ITree.iter (wait_inactive_step instance)) as loop eqn:Hloop.
    unfold wait_inactive_step, furi_timer_is_running.
    rewrite run_bind. answered Hirq. checked. checked. answered Hact.
    rewrite run_ret. unfold and_then at 2. cbn [ended after stop final fuel_left trace].
    rewrite (proj2 (Z.eqb_neq _ _) Hactive). cbn [negb].
    answered Hdelay. rewrite run_ret. unfold and_then.
    cbn [ended after stop final fuel_left trace].
    subst loop. rewrite (IH fuel (set_os (set_os (set_os w k1) k2) k3) eq_refl) by lia.
    cbn. f_equal. lia.
Qed.

(** With enough fuel for the polls the kernel answers, a release returns. *)
Lemma furi_timer_free_owned_returns
    (fuel : nat) (w : World K) (instance id : Z) (k1 k2 k3 k4 k5 k6 : K)
    (busy : list Z) (last : Z) :
  instance <> NULL ->
  kernel env furi_kernel_is_irq_or_masked (os w) = (k1, false) ->
  kernel env (pvTimerGetTimerID instance) k1 = (k2, id) ->
  alloc_flag id = true ->
  kernel env (xTimerStop instance portMAX_DELAY) k2 = (k3, pdPASS) ->
  waits env instance k3 busy last k4 ->
  kernel env (free (clear_alloc_flag id)) k4 = (k5, tt) ->
  kernel env (xTimerDelete instance portMAX_DELAY) k5 = (k6, pdPASS) ->
  (4 * length busy + 7 <= fuel)%nat ->
  let r := run env fuel (furi_timer_free instance) w in
  ended r = Returned tt /\
  trace r = release_trace instance id busy last /\
  final r = set_slots (set_os w k6) (delete (clear_alloc_flag id) (slots w)).
Proof.
  intros Hi H1 H2 Hflag H3 Hwaits H4 H5 Hfuel r. subst r.
  unfold furi_timer_free. at_least 3 of fuel.
  answered H1. checked. checked. answered H2. rewrite Hflag.
  rewrite run_bind.
  match goal with
  | |- context [and_then (run env ?n ?t ?w0) _] =>
      assert (Hinner : run env n t w0 =
                {| ended := Returned tt;
                   final := set_slots (set_os w k5) (delete (clear_alloc_flag id) (slots w));
                   trace := ext (xTimerStop instance portMAX_DELAY) pdPASS
                            :: (flat_map (busy_turn instance) busy ++ poll instance last)
                            ++ [ext (free (clear_alloc_flag id)) tt];
                   fuel_left := fuel - (4 * length busy + 3) |})
  end.
  { answered H3. rewrite run_check_bind, Z.eqb_refl. rewrite run_bind.
    rewrite (wait_inactive_returns instance k3 busy last k4 Hi Hwaits fuel
               (set_os (set_os (set_os w k1) k2) k3) eq_refl) by lia.
    unfold and_then. cbn [ended final trace fuel_left].
    destruct (fuel - (4 * length busy + 2))%nat as [|fuel1] eqn:E1; [exfalso; lia|].
    rewrite run_call.
    rewrite (handle_free env _ (set_os (set_os (set_os (set_os w k1) k2) k3) k4) _ _ H4).
    unfold after. cbn [ended final trace fuel_left stop fst snd]. f_equal; try reflexivity. lia. }
  rewrite Hinner. unfold and_then. cbn [ended final trace fuel_left].
  destruct (fuel - (4 * length busy + 3))%nat as [|fuel2] eqn:E2; [exfalso; lia|].
  answered H5. rewrite run_check, Z.eqb_refl. cbn.
  unfold release_trace. rewrite <- !app_assoc. auto.
Qed.

(** C10.  Allocate gives the kernel timer an ID with the low bit set, in
    every run.  Free on a handle whose ID has the low bit clear makes three
    calls: the context check, the ID query and the delete command; it
    sends no stop command, polls nothing and releases nothing.  Free on a
    handle whose ID has the low bit set, when it returns, has sent the
    stop command, polled until the timer was inactive, released the slot
    at the ID with the bit masked off and deleted the timer; and it does
    return when the kernel accepts the commands and the timer becomes
    inactive. *)
Theorem furi_timer_free_releases_iff_flag
    (fuel : nat) (w : World K) (instance id : Z) (k1 k2 : K) :
  instance <> NULL ->
  kernel env furi_kernel_is_irq_or_masked (os w) = (k1, false) ->
  kernel env (pvTimerGetTimerID instance) k1 = (k2, id) ->
  let r := run env fuel (furi_timer_free instance) w in
  (forall (f type ctx : Z) (fuel' : nat) (w' : World K),
     replay flagged tt (trace (run env fuel' (furi_timer_alloc f type ctx) w')) = Some tt) /\
  (alloc_flag id = false ->
     forall (k3 : K) (deleted : Z),
       kernel env (xTimerDelete instance portMAX_DELAY) k2 = (k3, deleted) ->
       (4 <= fuel)%nat ->
       trace r = [ext furi_kernel_is_irq_or_masked false;
                  ext (pvTimerGetTimerID instance) id;
                  ext (xTimerDelete instance portMAX_DELAY) deleted] /\
       ended r = (if deleted =? pdPASS then Returned tt else Crashed) /\
       final r = set_os w k3) /\
  (alloc_flag id = true ->
     (ended r = Returned tt ->
        exists busy last,
          trace r = release_trace instance id busy last /\
          Forall (fun a => u32 a <> 0) busy /\ u32 last = 0) /\
     (forall (k3 k4 k5 k6 : K) (busy : list Z) (last : Z),
        kernel env (xTimerStop instance portMAX_DELAY) k2 = (k3, pdPASS) ->
        waits env instance k3 busy last k4 ->
        kernel env (free (clear_alloc_flag id)) k4 = (k5, tt) ->
        kernel env (xTimerDelete instance portMAX_DELAY) k5 = (k6, pdPASS) ->
        (4 * length busy + 7 <= fuel)%nat ->
        ended r = Returned tt /\
        trace r = release_trace instance id busy last /\
        final r = set_slots (set_os w k6) (delete (clear_alloc_flag id) (slots w)))).
Proof.
  intros Hi H1 H2 r. subst r. split; [|split].
  - intros f type ctx fuel' w'.
    destruct (furi_timer_alloc_flags_id f type ctx w' fuel') as ([] & Hs & _). exact Hs.
  - intros Hflag k3 deleted H3 Hfuel. unfold furi_timer_free. at_least 4 of fuel.
    answered H1. checked. checked. answered H2. rewrite Hflag.
    rewrite run_bind_ret. answered H3. rewrite run_check.
    destruct (deleted =? pdPASS); cbn; auto.
  - intros Hflag. split.
    + intros E.
      destruct (furi_timer_free_owned (fun _ _ => false)
                  (fun _ _ _ _ _ _ => eq_refl) (fun _ _ _ _ _ _ _ => eq_refl)
                  (fun _ _ _ _ _ _ _ => eq_refl)
                  w instance k1 k2 false id H1 H2 Hflag fuel) as ([ph seen] & Hs & Hr).
      rewrite replay_watch in Hs.
      destruct (protocol instance (clear_alloc_flag id) Entered _) as [ph'|]; [|discriminate].
      injection Hs as -> <-.
      destruct (Hr tt E) as (_ & (busy & last & Hseen & Hbusy & Hlast) & _).
      exists busy, last. auto.
    + intros k3 k4 k5 k6 busy last H3 Hwaits H4 H5 Hfuel.
      apply (furi_timer_free_owned_returns fuel w instance id k1 k2 k3 k4 k5 k6 busy last);
        assumption.
Qed.

(** *** A new timer *)

(** C9.  Take a kernel whose [xTimerCreate] makes dormant timers: asked
    right after a creation, it reports the new timer inactive.  When
    Allocate returns a timer and IsRunning is called on it next, IsRunning
    returns zero.  Allocate has created the kernel timer with the period
    [portMAX_DELAY], and the creation is the last thing it asked of the
    kernel: it sent no command that arms the timer. *)
Theorem furi_timer_alloc_not_running
    (fuel : nat) (w : World K) (f type ctx : Z)
    (k1 k2 k3 k4 k5 k6 k7 : K) (p thread_id name hTimer active : Z) :
  (forall (k k' k'' k''' : K) (name period reload id h a : Z) (b : bool),
     kernel env (xTimerCreate name period reload id) k = (k', h) ->
     h <> NULL ->
     kernel env furi_kernel_is_irq_or_masked k' = (k'', b) ->
     kernel env (xTimerIsTimerActive h) k'' = (k''', a) ->
     a = 0) ->
  (9 <= fuel)%nat ->
  f <> NULL ->
  kernel env furi_kernel_is_irq_or_masked (os w) = (k1, false) ->
  kernel env (malloc sizeof_TimerCallback_t) k1 = (k2, p) ->
  p <> NULL ->
  kernel env furi_thread_get_current_id k2 = (k3, thread_id) ->
  kernel env (furi_thread_get_appid thread_id) k3 = (k4, name) ->
  kernel env (xTimerCreate name portMAX_DELAY
                (if type =? FuriTimerTypeOnce then pdFALSE else pdTRUE)
                (set_alloc_flag p)) k4 = (k5, hTimer) ->
  hTimer <> NULL ->
  kernel env furi_kernel_is_irq_or_masked k5 = (k6, false) ->
  kernel env (xTimerIsTimerActive hTimer) k6 = (k7, active) ->
  let r := run env fuel (ITree.bind (furi_timer_alloc f type ctx) furi_timer_is_running) w in
  ended r = Returned 0 /\
  trace r = [ext furi_kernel_is_irq_or_masked false;
             ext (malloc sizeof_TimerCallback_t) p;
             Ev (store_func p f) tt;
             Ev (store_context p ctx) tt;
             ext furi_thread_get_current_id thread_id;
             ext (furi_thread_get_appid thread_id) name;
             ext (xTimerCreate name portMAX_DELAY
                    (if type =? FuriTimerTypeOnce then pdFALSE else pdTRUE)
                    (set_alloc_flag p)) hTimer]
            ++ poll hTimer 0.
Proof.
  intros Hdormant Hfuel Hf H1 H2 Hp H3 H4 H5 Hh H6 H7 r. subst r.
  assert (Ha : active = 0) by (eapply Hdormant; eassumption). subst active.
  rewrite run_bind.
  unfold furi_timer_alloc. at_least 9 of fuel.
  answered H1. checked.
  rewrite run_call_bind, (handle_malloc env _ (set_os w k1) _ _ H2 Hp). cbn [fst snd].
  rewrite run_trigger_bind. cbn [handle slots set_slots set_os].
  rewrite lookup_insert_eq. cbn [func context].
  rewrite run_trigger_bind. cbn [handle slots set_slots set_os].
  rewrite lookup_insert_eq. cbn [func context].
  answered H3. answered H4. answered H5. checked.
  rewrite run_ret. unfold and_then. cbn [ended trace final fuel_left after stop].
  unfold furi_timer_is_running.
  answered H6. checked. checked. answered H7.
  rewrite run_ret. cbn. auto.
Qed.


End Claims.

(** ** The simulated kernel keeps the kernel's side *)

Section SimFacts.
Context {P : Platform}.

Lemma sim_inactive_quiescent (k k' : Sim.state) (h a : Z) :
  kernel Sim.env (xTimerIsTimerActive h) k = (k', a) ->
  u32 a = 0 -> Sim.executing k' h = false.
Proof.
  cbn. intros [= <- <-].
  destruct (from_option Sim.armed false (Sim.timers k !! h)), (Sim.executing k h);
    cbn; intros H; try discriminate H; reflexivity.
Qed.

Lemma sim_free_keeps_quiescent (k k' : Sim.state) (h p : Z) (u : unit) :
  Sim.executing k h = false ->
  kernel Sim.env (free p) k = (k', u) -> Sim.executing k' h = false.
Proof. cbn. intros H [= <-]. exact H. Qed.

Lemma sim_delete_keeps_quiescent (k k' : Sim.state) (h wait r : Z) :
  Sim.executing k h = false ->
  kernel Sim.env (xTimerDelete h wait) k = (k', r) -> Sim.executing k' h = false.
Proof.
  cbn. unfold Sim.command, Sim.send. intros H.
  destruct (Sim.queue k) as [|[|] rest]; intros [= <- _]; exact H.
Qed.

Lemma sim_created_dormant (k k' k'' k''' : Sim.state)
    (name period reload id h a : Z) (b : bool) :
  kernel Sim.env (xTimerCreate name period reload id) k = (k', h) ->
  h <> NULL ->
  kernel Sim.env furi_kernel_is_irq_or_masked k' = (k'', b) ->
  kernel Sim.env (xTimerIsTimerActive h) k'' = (k''', a) ->
  a = 0.
Proof.
  cbn. intros Hc Hh [= <- _] [= _ <-].
  destruct (Sim.next_handle k =? 0) eqn:E0; cbn in Hc.
  - injection Hc as _ <-. contradiction Hh. reflexivity.
  - destruct (Sim.executing k (Sim.next_handle k)) eqn:Ex; cbn in Hc.
    + injection Hc as _ <-. contradiction Hh. reflexivity.
    + injection Hc as <- <-. cbn. rewrite lookup_insert_eq. cbn.
      unfold Sim.executing in *. cbn. rewrite Ex. reflexivity.
Qed.

End SimFacts.

(** ** The scenarios, run *)

Section Scenarios.
#[local] Existing Instance Sim.platform.
Import Scenario.

Lemma furi_timer_start_restart_status_witness :
  let s := run env 3 (furi_timer_start hTimer 5) congested in
  let r := run env 3 (furi_timer_restart hTimer 5) congested in
  (ended s = Returned FuriStatusOk /\
   trace s = [ext furi_kernel_is_irq_or_masked false;
              ext (xTimerChangePeriod hTimer 5 portMAX_DELAY) 1] /\
   final s = set_os congested
               (fst (Sim.step (xTimerChangePeriod hTimer 5 portMAX_DELAY) (os congested)))) /\
  (ended r = Returned FuriStatusErrorResource /\
   trace r = [ext furi_kernel_is_irq_or_masked false;
              ext (xTimerChangePeriod hTimer 5 portMAX_DELAY) 1;
              ext (xTimerReset hTimer portMAX_DELAY) 0] /\
   final r = set_os congested
               (fst (Sim.step (xTimerReset hTimer portMAX_DELAY)
                       (fst (Sim.step (xTimerChangePeriod hTimer 5 portMAX_DELAY)
                               (os congested)))))).
Proof.
  exact (furi_timer_start_restart_status env 3 congested hTimer 5
           (os congested)
           (fst (Sim.step (xTimerChangePeriod hTimer 5 portMAX_DELAY) (os congested)))
           (fst (Sim.step (xTimerReset hTimer portMAX_DELAY)
                   (fst (Sim.step (xTimerChangePeriod hTimer 5 portMAX_DELAY)
                           (os congested)))))
           1 0
           ltac:(lia) ltac:(vm_compute; discriminate) ltac:(reflexivity)
           ltac:(vm_compute; reflexivity) ltac:(vm_compute; reflexivity)
           ltac:(vm_compute; reflexivity)).
Defined.

(** Against C2 as stated.  With room for one command in the queue, Restart
    returns the resource error after the change-period command was taken:
    the timer, which had a period of ten ticks and was to expire at tick
    ten, now has a period of five ticks and expires at tick five. *)
Lemma furi_timer_restart_error_changes_timer :
  let r := run env 3 (furi_timer_restart hTimer 5) congested in
  ended r = Returned FuriStatusErrorResource /\
  Sim.period <$> Sim.timers (os congested) !! hTimer = Some 10 /\
  Sim.period <$> Sim.timers (os (final r)) !! hTimer = Some 5 /\
  Sim.expiry <$> Sim.timers (os congested) !! hTimer = Some 10 /\
  Sim.expiry <$> Sim.timers (os (final r)) !! hTimer = Some 5.
Proof. vm_compute. repeat split; reflexivity. Qed.

Lemma furi_timer_free_waits_for_inactive_witness :
  let r := run env 19 (furi_timer_free hTimer) firing in
  Sim.executing (os firing) hTimer = true /\
  ended r = Returned tt /\
  protocol hTimer 536936448 Entered (trace r) = Some Deleted /\
  Sim.executing (os (final r)) hTimer = false /\
  slots (final r) !! 536936448 = None /\
  Sim.timers (os (final r)) !! hTimer = None.
Proof.
  intros r.
  destruct (furi_timer_free_waits_for_inactive env Sim.executing
              sim_inactive_quiescent sim_free_keeps_quiescent sim_delete_keeps_quiescent
              19 firing hTimer (os firing) (os firing) false 536936449
              ltac:(vm_compute; reflexivity) ltac:(vm_compute; reflexivity)
              ltac:(vm_compute; reflexivity))
    as [(ph & Hph & Hdel) [Hq _]].
  assert (E : ended r = Returned tt) by (vm_compute; reflexivity).
  split; [vm_compute; reflexivity|]. split; [exact E|]. split; [|split].
  - rewrite <- (Hdel E). exact Hph.
  - exact (Hq E).
  - split; vm_compute; reflexivity.
Defined.

Lemma furi_timer_alloc_slot_not_null_witness :
  let r := run env 7 (furi_timer_alloc callback FuriTimerTypeOnce 1) booted in
  ended r = Returned hTimer /\
  clear_alloc_flag (set_alloc_flag 536936448) = 536936448 /\
  clear_alloc_flag (set_alloc_flag 536936448) <> NULL /\
  slots (final r) !! clear_alloc_flag (set_alloc_flag 536936448)
    = Some {| func := callback; context := 1 |}.
Proof.
  intros r.
  destruct (furi_timer_alloc_slot_not_null env 7 booted callback FuriTimerTypeOnce 1
              (os booted)
              (fst (Sim.step (malloc sizeof_TimerCallback_t) (os booted)))
              (fst (Sim.step (malloc sizeof_TimerCallback_t) (os booted)))
              (fst (Sim.step (malloc sizeof_TimerCallback_t) (os booted)))
              (os created)
              536936448 (Sim.thread Sim.boot) (Sim.appid Sim.boot) hTimer
              ltac:(lia) ltac:(vm_compute; discriminate)
              ltac:(vm_compute; reflexivity) ltac:(vm_compute; reflexivity)
              ltac:(vm_compute; discriminate) ltac:(lia) ltac:(reflexivity)
              ltac:(vm_compute; reflexivity) ltac:(vm_compute; reflexivity)
              ltac:(vm_compute; reflexivity) ltac:(vm_compute; discriminate))
    as (H1 & _ & H3 & H4 & H5 & _).
  auto.
Defined.

Lemma interrupt_context_refused_except_by_two_witness :
  let r := run env 3 (perform (Op_stop hTimer)) interrupted in
  ended r = Crashed /\
  trace r = [ext furi_kernel_is_irq_or_masked true] /\
  final r = interrupted.
Proof.
  exact (proj1 (interrupt_context_refused_except_by_two env (Op_stop hTimer) 3
                  interrupted (os interrupted)
                  ltac:(lia) ltac:(vm_compute; reflexivity))
               eq_refl eq_refl).
Defined.

(** Against C4 as stated.  [furi_timer_get_current_name] is an exposed
    operation other than PendingCallback, and called in interrupt context
    it returns: it never asks for the context. *)
Lemma furi_timer_get_current_name_in_interrupt_context :
  let r := run env 3 (perform Op_get_current_name) interrupted in
  is_pending_callback Op_get_current_name = false /\
  kernel env furi_kernel_is_irq_or_masked (os interrupted) = (os interrupted, true) /\
  ended r = Returned tt /\
  trace r = [Ev read_current_timer_name NULL].
Proof. vm_compute. repeat split; reflexivity. Qed.

Lemma TimerCallback_calls_iff_slot_not_null_witness :
  let r := run env 7 (TimerCallback hTimer) started in
  ended r = Returned tt /\ user_calls (trace r) = [(callback, 1)].
Proof.
  exact (proj2 (TimerCallback_calls_iff_slot_not_null env 7 started hTimer
                  (os started) (os started) 536936449 (Sim.appid Sim.boot)
                  ltac:(lia) ltac:(vm_compute; reflexivity) ltac:(vm_compute; reflexivity))
               ltac:(vm_compute; discriminate)
               {| func := callback; context := 1 |}
               ltac:(vm_compute; reflexivity)).
Defined.

Lemma current_timer_name_set_during_dispatch_witness :
  let r := run env 7 (TimerCallback hTimer) started in
  ended r = Returned tt /\
  trace r = [ext (pvTimerGetTimerID hTimer) 536936449;
             ext (pcTimerGetName hTimer) (Sim.appid Sim.boot);
             Ev (write_current_timer_name (Sim.appid Sim.boot)) tt;
             Ev (load_func 536936448) callback;
             Ev (load_context 536936448) 1;
             Ev (invoke callback 1) tt;
             Ev (write_current_timer_name NULL) tt] /\
  Sim.fired (os (final r)) = [(callback, 1, Sim.appid Sim.boot)] /\
  current_timer_name (final r) = NULL.
Proof.
  intros r.
  destruct (current_timer_name_set_during_dispatch env 7 started hTimer
              (os started) (os started) 536936449 (Sim.appid Sim.boot)
              {| func := callback; context := 1 |}
              ltac:(lia) ltac:(vm_compute; reflexivity) ltac:(vm_compute; reflexivity)
              ltac:(vm_compute; discriminate) ltac:(vm_compute; reflexivity))
    as [(H1 & H2 & H3) _].
  split; [exact H1|]. split; [exact H2|]. fold r in H3. rewrite H3.
  split; reflexivity.
Defined.

Lemma furi_timer_pending_callback_routes_witness :
  let r := run env 3 (furi_timer_pending_callback callback 1 2) interrupted in
  trace r = [ext furi_kernel_is_irq_or_masked true;
             ext (xTimerPendFunctionCallFromISR callback 1 2 NULL) 1] /\
  ended r = Returned tt /\
  Sim.pended (os (final r)) = [(callback, 1, 2)].
Proof.
  intros r.
  destruct (furi_timer_pending_callback_routes env 3 interrupted callback 1 2
              (os interrupted)
              (fst (Sim.step (xTimerPendFunctionCallFromISR callback 1 2 NULL) (os interrupted)))
              true 1
              ltac:(lia) ltac:(vm_compute; discriminate)
              ltac:(vm_compute; reflexivity) ltac:(vm_compute; reflexivity))
    as (H1 & H2 & H3).
  split; [exact H1|]. split; [exact H2|]. fold r in H3. rewrite H3. reflexivity.
Defined.

Lemma furi_timer_set_thread_priority_levels_witness :
  let r := run env 3 (furi_timer_set_thread_priority FuriTimerThreadPriorityElevated) booted in
  ended r = Returned tt /\
  trace r = [ext furi_kernel_is_irq_or_masked false;
             ext xTimerGetTimerDaemonTaskHandle (Sim.daemon_task Sim.boot);
             ext (vTaskPrioritySet (Sim.daemon_task Sim.boot) 31) tt] /\
  Sim.daemon_priority (os (final r)) = 31.
Proof.
  intros r.
  destruct (furi_timer_set_thread_priority_levels env 3 booted FuriTimerThreadPriorityElevated
              (os booted) (os booted)
              (fst (Sim.step (vTaskPrioritySet (Sim.daemon_task Sim.boot)
                                configTIMER_TASK_PRIORITY) (os booted)))
              (fst (Sim.step (vTaskPrioritySet (Sim.daemon_task Sim.boot)
                                (configMAX_PRIORITIES - 1)) (os booted)))
              (Sim.daemon_task Sim.boot)
              ltac:(lia) ltac:(vm_compute; reflexivity) ltac:(vm_compute; reflexivity)
              ltac:(vm_compute; reflexivity) ltac:(vm_compute; reflexivity)
              ltac:(vm_compute; split; [reflexivity|discriminate]))
    as (_ & _ & H & _).
  destruct (H ltac:(vm_compute; discriminate) ltac:(vm_compute; discriminate) eq_refl)
    as (H1 & H2 & H3).
  split; [exact H1|]. split; [exact H2|]. fold r in H3. rewrite H3. reflexivity.
Defined.

Lemma furi_timer_alloc_not_running_witness :
  let r := run env 9 (ITree.bind (furi_timer_alloc callback FuriTimerTypeOnce 1)
                        furi_timer_is_running) booted in
  ended r = Returned 0.
Proof.
  exact (proj1 (furi_timer_alloc_not_running env 9 booted callback FuriTimerTypeOnce 1
              (os booted)
              (fst (Sim.step (malloc sizeof_TimerCallback_t) (os booted)))
              (fst (Sim.step (malloc sizeof_TimerCallback_t) (os booted)))
              (fst (Sim.step (malloc sizeof_TimerCallback_t) (os booted)))
              (os created) (os created) (os created)
              536936448 (Sim.thread Sim.boot) (Sim.appid Sim.boot) hTimer 0
              sim_created_dormant
              ltac:(lia) ltac:(vm_compute; discriminate)
              ltac:(vm_compute; reflexivity) ltac:(vm_compute; reflexivity)
              ltac:(vm_compute; discriminate)
              ltac:(vm_compute; reflexivity) ltac:(vm_compute; reflexivity)
              ltac:(vm_compute; reflexivity) ltac:(vm_compute; discriminate)
              ltac:(vm_compute; reflexivity) ltac:(vm_compute; reflexivity))).
Defined.

Lemma furi_timer_free_releases_iff_flag_witness :
  let r := run env 7 (furi_timer_free hTimer) started in
  alloc_flag 536936449 = true /\
  ended r = Returned tt /\
  trace r = release_trace hTimer 536936449 [] 0 /\
  slots (final r) !! 536936448 = None /\
  Sim.timers (os (final r)) !! hTimer = None.
Proof.
  intros r.
  destruct (furi_timer_free_releases_iff_flag env 7 started hTimer 536936449
              (os started) (os started)
              ltac:(vm_compute; discriminate)
              ltac:(vm_compute; reflexivity) ltac:(vm_compute; reflexivity))
    as (_ & _ & H).
  destruct (H ltac:(vm_compute; reflexivity)) as [_ H'].
  destruct (H' (fst (Sim.step (xTimerStop hTimer portMAX_DELAY) (os started)))
               (fst (Sim.step (xTimerStop hTimer portMAX_DELAY) (os started)))
               (fst (Sim.step (xTimerStop hTimer portMAX_DELAY) (os started)))
               (fst (Sim.step (xTimerDelete hTimer portMAX_DELAY)
                       (fst (Sim.step (xTimerStop hTimer portMAX_DELAY) (os started)))))
               [] 0
               ltac:(vm_compute; reflexivity)
               ltac:(eapply waits_done; vm_compute; reflexivity)
               ltac:(vm_compute; reflexivity) ltac:(vm_compute; reflexivity)
               ltac:(cbn; lia))
    as (H1 & H2 & H3).
  split; [vm_compute; reflexivity|]. split; [exact H1|]. split; [exact H2|].
  fold r in H3. rewrite H3. split; vm_compute; reflexivity.
Defined.

End Scenarios.

(** * Further properties of the operations *)

Section More.
Context {P : Platform} {K : Type} (env : Environment K).

(** ** What the checks refuse *)

(** X1.  Stop, called from thread context on a handle, sends one stop
    command with the timeout [portMAX_DELAY].  It returns Ok when the kernel
    took the command and halts the process when it did not: Stop never
    returns an error status. *)
Theorem furi_timer_stop_ok_or_halt
    (fuel : nat) (w : World K) (instance : Z) (k1 k2 : K) (stopped : Z) :
  (3 <= fuel)%nat ->
  instance <> NULL ->
  kernel env furi_kernel_is_irq_or_masked (os w) = (k1, false) ->
  kernel env (xTimerStop instance portMAX_DELAY) k1 = (k2, stopped) ->
  let r := run env fuel (furi_timer_stop instance) w in
  ended r = (if stopped =? pdPASS then Returned FuriStatusOk else Crashed) /\
  trace r = [ext furi_kernel_is_irq_or_masked false;
             ext (xTimerStop instance portMAX_DELAY) stopped] /\
  final r = set_os w k2.
Proof.
  intros Hfuel Hi H1 H2 r. subst r. unfold furi_timer_stop. at_least 3 of fuel.
  answered H1. checked. checked. answered H2. rewrite run_check_bind.
  destruct (stopped =? pdPASS); [rewrite run_ret|]; cbn; auto.
Qed.

(** X2.  Every exposed operation that takes a timer handle halts the
    process when the handle is null.  It does so right after the context
    check: the kernel is asked nothing about the timer and no command is
    sent. *)
Theorem null_handle_halts
    (c : api_call) (fuel : nat) (w : World K) (k1 : K) :
  (2 <= fuel)%nat ->
  handle_of c = Some NULL ->
  kernel env furi_kernel_is_irq_or_masked (os w) = (k1, false) ->
  let r := run env fuel (perform c) w in
  ended r = Crashed /\
  trace r = [ext furi_kernel_is_irq_or_masked false] /\
  final r = set_os w k1.
Proof.
  intros Hfuel Hc H1 r. subst r. at_least 2 of fuel.
  destruct c; cbn [handle_of] in Hc; try discriminate Hc; injection Hc as ->;
    cbn [perform].
  - unfold furi_timer_free. answered H1. checked. checked. cbn. auto.
  - rewrite run_bind. unfold furi_timer_start. answered H1. checked. checked. cbn. auto.
  - rewrite run_bind. unfold furi_timer_restart. answered H1. checked. checked. cbn. auto.
  - rewrite run_bind. unfold furi_timer_stop. answered H1. checked. checked. cbn. auto.
  - rewrite run_bind. unfold furi_timer_is_running. answered H1. checked. checked. cbn. auto.
  - rewrite run_bind. unfold furi_timer_get_expire_time. answered H1. checked. checked.
    cbn. auto.
Qed.

(** X3.  Start and Restart halt the process when the period is
    [portMAX_DELAY] or more, before any command is sent: the timer keeps
    the period it had. *)
Theorem period_at_sentinel_halts
    (fuel : nat) (w : World K) (instance ticks : Z) (k1 : K) :
  (2 <= fuel)%nat ->
  instance <> NULL ->
  portMAX_DELAY <= ticks ->
  kernel env furi_kernel_is_irq_or_masked (os w) = (k1, false) ->
  let s := run env fuel (furi_timer_start instance ticks) w in
  let r := run env fuel (furi_timer_restart instance ticks) w in
  (ended s = Crashed /\ trace s = [ext furi_kernel_is_irq_or_masked false] /\
   final s = set_os w k1) /\
  (ended r = Crashed /\ trace r = [ext furi_kernel_is_irq_or_masked false] /\
   final r = set_os w k1).
Proof.
  intros Hfuel Hi Ht H1 s r. subst s r. at_least 2 of fuel.
  unfold furi_timer_start, furi_timer_restart. split.
  - answered H1. checked. checked. rewrite run_check_bind.
    rewrite (proj2 (Z.ltb_ge ticks portMAX_DELAY) Ht). cbn. auto.
  - answered H1. checked. checked. rewrite run_check_bind.
    rewrite (proj2 (Z.ltb_ge ticks portMAX_DELAY) Ht). cbn. auto.
Qed.

(** X4.  Allocate without a callback function halts the process in the
    entry check, whatever the context: nothing has been allocated and no
    kernel timer created. *)
Theorem furi_timer_alloc_without_callback_halts
    (fuel : nat) (w : World K) (type ctx : Z) (k1 : K) (in_irq : bool) :
  (2 <= fuel)%nat ->
  kernel env furi_kernel_is_irq_or_masked (os w) = (k1, in_irq) ->
  let r := run env fuel (furi_timer_alloc NULL type ctx) w in
  ended r = Crashed /\
  trace r = [ext furi_kernel_is_irq_or_masked in_irq] /\
  final r = set_os w k1.
Proof.
  intros Hfuel H1 r. subst r. at_least 2 of fuel.
  unfold furi_timer_alloc. answered H1. rewrite run_check_bind.
  rewrite Z.eqb_refl, andb_false_r. cbn. auto.
Qed.

(** X5.  When the kernel cannot create the timer, Allocate halts the
    process.  The slot it has filled in by then is not released first: it
    is still allocated, holding the function and the context. *)
Theorem furi_timer_alloc_create_failure_halts
    (fuel : nat) (w : World K) (f type ctx : Z)
    (k1 k2 k3 k4 k5 : K) (p thread_id name : Z) :
  (8 <= fuel)%nat ->
  f <> NULL ->
  kernel env furi_kernel_is_irq_or_masked (os w) = (k1, false) ->
  kernel env (malloc sizeof_TimerCallback_t) k1 = (k2, p) ->
  p <> NULL ->
  kernel env furi_thread_get_current_id k2 = (k3, thread_id) ->
  kernel env (furi_thread_get_appid thread_id) k3 = (k4, name) ->
  kernel env (xTimerCreate name portMAX_DELAY
                (if type =? FuriTimerTypeOnce then pdFALSE else pdTRUE)
                (set_alloc_flag p)) k4 = (k5, NULL) ->
  let r := run env fuel (furi_timer_alloc f type ctx) w in
  ended r = Crashed /\
  trace r = [ext furi_kernel_is_irq_or_masked false;
             ext (malloc sizeof_TimerCallback_t) p;
             Ev (store_func p f) tt;
             Ev (store_context p ctx) tt;
             ext furi_thread_get_current_id thread_id;
             ext (furi_thread_get_appid thread_id) name;
             ext (xTimerCreate name portMAX_DELAY
                    (if type =? FuriTimerTypeOnce then pdFALSE else pdTRUE)
                    (set_alloc_flag p)) NULL] /\
  slots (final r) !! p = Some {| func := f; context := ctx |}.
Proof.
  intros Hfuel Hf H1 H2 Hp H3 H4 H5 r. subst r.
  unfold furi_timer_alloc. at_least 8 of fuel.
  answered H1. checked.
  rewrite run_call_bind, (handle_malloc env _ (set_os w k1) _ _ H2 Hp). cbn [fst snd].
  rewrite run_trigger_bind. cbn [handle slots set_slots set_os].
  rewrite lookup_insert_eq. cbn [func context].
  rewrite run_trigger_bind. cbn [handle slots set_slots set_os].
  rewrite lookup_insert_eq. cbn [func context].
  answered H3. answered H4. answered H5. rewrite run_check_bind.
  cbn [Z.eqb NULL negb ended trace final after stop slots set_slots set_os os].
  rewrite lookup_insert_eq. auto.
Qed.

(** X6.  PendingCallback without a function halts the process before it
    does anything else: it does not even ask for the context, and nothing
    is submitted to the daemon. *)
Theorem furi_timer_pending_callback_without_function_halts
    (fuel : nat) (w : World K) (ctx arg : Z) :
  let r := run env (S fuel) (furi_timer_pending_callback NULL ctx arg) w in
  ended r = Crashed /\ trace r = [] /\ final r = w.
Proof.
  intros r. subst r. unfold furi_timer_pending_callback.
  rewrite run_check_bind. cbn. auto.
Qed.
(** ** The queries *)

Lemma u32_zero_iff (a : Z) : - 2 ^ 31 <= a < 2 ^ 31 -> (u32 a = 0 <-> a = 0).
Proof.
  intros Ha. unfold u32. split; [|intros ->; reflexivity].
  intros H. destruct (Z_lt_dec a 0) as [Hneg|Hpos].
  - rewrite <- (Z.mod_add a 1 (2 ^ 32)), Z.mod_small in H by lia. lia.
  - rewrite Z.mod_small in H by lia. exact H.
Qed.

(** X7.  IsRunning and GetExpiryTime, called from thread context on a
    handle, make one kernel query each and return its answer converted to
    [uint32_t], touching nothing else.  For an answer in the range of
    [BaseType_t], IsRunning returns zero exactly when the kernel answered
    zero, so a negative answer counts as running; an expiry time in the
    range of [TickType_t] is returned as it is. *)
Theorem queries_return_kernel_answer
    (fuel : nat) (w : World K) (instance : Z) (k1 k2 k3 : K) (active expiry : Z) :
  (2 <= fuel)%nat ->
  instance <> NULL ->
  kernel env furi_kernel_is_irq_or_masked (os w) = (k1, false) ->
  kernel env (xTimerIsTimerActive instance) k1 = (k2, active) ->
  kernel env (xTimerGetExpiryTime instance) k1 = (k3, expiry) ->
  let r := run env fuel (furi_timer_is_running instance) w in
  let e := run env fuel (furi_timer_get_expire_time instance) w in
  (ended r = Returned (u32 active) /\
   trace r = poll instance active /\
   final r = set_os w k2 /\
   (- 2 ^ 31 <= active < 2 ^ 31 -> (u32 active = 0 <-> active = 0))) /\
  (ended e = Returned (u32 expiry) /\
   trace e = [ext furi_kernel_is_irq_or_masked false;
              ext (xTimerGetExpiryTime instance) expiry] /\
   final e = set_os w k3 /\
   (0 <= expiry < 2 ^ 32 -> u32 expiry = expiry)).
Proof.
  intros Hfuel Hi H1 H2 H3 r e. subst r e. at_least 2 of fuel.
  unfold furi_timer_is_running, furi_timer_get_expire_time. split.
  - answered H1. checked. checked. answered H2. rewrite run_ret. cbn.
    repeat split; auto; apply u32_zero_iff; assumption.
  - answered H1. checked. checked. answered H3. rewrite run_ret. cbn.
    repeat split; auto. apply u32_small.
Qed.

(** ** The ways Free halts *)

(** X8.  When the kernel refuses the stop command, Free on a timer whose
    slot it owns halts the process at once: it has not polled, the slot is
    not released and the kernel timer is not deleted. *)
Theorem furi_timer_free_stop_refused_halts
    (fuel : nat) (w : World K) (instance id : Z) (k1 k2 k3 : K) (stopped : Z) :
  (4 <= fuel)%nat ->
  instance <> NULL ->
  kernel env furi_kernel_is_irq_or_masked (os w) = (k1, false) ->
  kernel env (pvTimerGetTimerID instance) k1 = (k2, id) ->
  alloc_flag id = true ->
  kernel env (xTimerStop instance portMAX_DELAY) k2 = (k3, stopped) ->
  stopped <> pdPASS ->
  let r := run env fuel (furi_timer_free instance) w in
  ended r = Crashed /\
  trace r = [ext furi_kernel_is_irq_or_masked false;
             ext (pvTimerGetTimerID instance) id;
             ext (xTimerStop instance portMAX_DELAY) stopped] /\
  final r = set_os w k3.
Proof.
  intros Hfuel Hi H1 H2 Hflag H3 Hs r. subst r.
  unfold furi_timer_free. at_least 4 of fuel.
  answered H1. checked. checked. answered H2. rewrite Hflag.
  rewrite run_bind. answered H3. checked. cbn. auto.
Qed.

Lemma furi_timer_free_owned_ends
    (fuel : nat) (w : World K) (instance id : Z) (k1 k2 k3 k4 k5 k6 : K)
    (busy : list Z) (last deleted : Z) :
  instance <> NULL ->
  kernel env furi_kernel_is_irq_or_masked (os w) = (k1, false) ->
  kernel env (pvTimerGetTimerID instance) k1 = (k2, id) ->
  alloc_flag id = true ->
  kernel env (xTimerStop instance portMAX_DELAY) k2 = (k3, pdPASS) ->
  waits env instance k3 busy last k4 ->
  kernel env (free (clear_alloc_flag id)) k4 = (k5, tt) ->
  kernel env (xTimerDelete instance portMAX_DELAY) k5 = (k6, deleted) ->
  (4 * length busy + 8 <= fuel)%nat ->
  run env fuel (furi_timer_free instance) w =
  {| ended := if deleted =? pdPASS then Returned tt else Crashed;
     final := set_slots (set_os w k6) (delete (clear_alloc_flag id) (slots w));
     trace := [ext furi_kernel_is_irq_or_masked false;
               ext (pvTimerGetTimerID instance) id;
               ext (xTimerStop instance portMAX_DELAY) pdPASS]
              ++ flat_map (busy_turn instance) busy
              ++ poll instance last
              ++ [ext (free (clear_alloc_flag id)) tt;
                  ext (xTimerDelete instance portMAX_DELAY) deleted];
     fuel_left := if deleted =? pdPASS
                  then fuel - (4 * length busy + 7)
                  else fuel - (4 * length busy + 8) |}.
Proof.
  intros Hi H1 H2 Hflag H3 Hwaits H4 H5 Hfuel.
  unfold furi_timer_free. at_least 3 of fuel.
  answered H1. checked. checked. answered H2. rewrite Hflag.
  rewrite run_bind.
  match goal with
  | |- context [and_then (run env ?n ?t ?w0) _] =>
      assert (Hinner : run env n t w0 =
                {| ended := Returned tt;
                   final := set_slots (set_os w k5) (delete (clear_alloc_flag id) (slots w));
                   trace := ext (xTimerStop instance portMAX_DELAY) pdPASS
                            :: (flat_map (busy_turn instance) busy ++ poll instance last)
                            ++ [ext (free (clear_alloc_flag id)) tt];
                   fuel_left := fuel - (4 * length busy + 3) |})
  end.
  { answered H3. rewrite run_check_bind, Z.eqb_refl. rewrite run_bind.
    rewrite (wait_inactive_returns env instance k3 busy last k4 Hi Hwaits fuel
               (set_os (set_os (set_os w k1) k2) k3) eq_refl) by lia.
    unfold and_then. cbn [ended final trace fuel_left].
    destruct (fuel - (4 * length busy + 2))%nat as [|fuel1] eqn:E1; [exfalso; lia|].
    rewrite run_call.
    rewrite (handle_free env _ (set_os (set_os (set_os (set_os w k1) k2) k3) k4) _ _ H4).
    unfold after. cbn [ended final trace fuel_left stop fst snd].
    f_equal; try reflexivity. lia. }
  rewrite Hinner. unfold and_then. cbn [ended final trace fuel_left].
  destruct (fuel - (4 * length busy + 3))%nat as [|fuel2] eqn:E2; [exfalso; lia|].
  answered H5. rewrite run_check.
  destruct (deleted =? pdPASS).
  - unfold after, stop. cbn [ended final trace fuel_left app].
    rewrite <- !app_assoc. cbn [app]. f_equal; try reflexivity. lia.
  - destruct fuel2 as [|fuel3]; [exfalso; lia|].
    unfold after, stop. cbn [ended final trace fuel_left app].
    rewrite <- !app_assoc. cbn [app]. f_equal; try reflexivity. lia.
Qed.

(** X9.  When the kernel refuses the delete command, Free on a timer
    whose slot it owns halts the process with the slot already released:
    the stop, the wait and the release have all taken place, and the kernel
    timer is left behind with an ID that points at released memory. *)
Theorem furi_timer_free_delete_refused_halts
    (fuel : nat) (w : World K) (instance id : Z) (k1 k2 k3 k4 k5 k6 : K)
    (busy : list Z) (idle deleted : Z) :
  instance <> NULL ->
  kernel env furi_kernel_is_irq_or_masked (os w) = (k1, false) ->
  kernel env (pvTimerGetTimerID instance) k1 = (k2, id) ->
  alloc_flag id = true ->
  kernel env (xTimerStop instance portMAX_DELAY) k2 = (k3, pdPASS) ->
  waits env instance k3 busy idle k4 ->
  kernel env (free (clear_alloc_flag id)) k4 = (k5, tt) ->
  kernel env (xTimerDelete instance portMAX_DELAY) k5 = (k6, deleted) ->
  deleted <> pdPASS ->
  (4 * length busy + 8 <= fuel)%nat ->
  let r := run env fuel (furi_timer_free instance) w in
  ended r = Crashed /\
  In (ext (free (clear_alloc_flag id)) tt) (trace r) /\
  last (trace r) = Some (ext (xTimerDelete instance portMAX_DELAY) deleted) /\
  slots (final r) !! clear_alloc_flag id = None.
Proof.
  intros Hi H1 H2 Hflag H3 Hwaits H4 H5 Hd Hfuel r. subst r.
  rewrite (furi_timer_free_owned_ends fuel w instance id k1 k2 k3 k4 k5 k6 busy idle deleted)
    by assumption.
  rewrite (proj2 (Z.eqb_neq deleted pdPASS) Hd). cbn [ended trace final slots set_slots].
  split; [reflexivity|]. split; [|split].
  - rewrite !in_app_iff. right. right. right. left. reflexivity.
  - change [ext (free (clear_alloc_flag id)) tt;
            ext (xTimerDelete instance portMAX_DELAY) deleted]
      with ([ext (free (clear_alloc_flag id)) tt]
            ++ [ext (xTimerDelete instance portMAX_DELAY) deleted]).
    rewrite !app_assoc. apply last_snoc.
  - apply lookup_delete_eq.
Qed.

(** X10.  While the kernel reports the timer active at every poll, Free
    on a timer whose slot it owns never returns, however long it is given,
    and in the meantime it neither releases the slot nor deletes the kernel
    timer: a callback that does not come back holds Free for ever. *)
Theorem furi_timer_free_blocks_while_active
    (fuel : nat) (w : World K) (instance : Z) (k1 k2 : K) (in_irq : bool) (id : Z) :
  (forall k : K, u32 (snd (kernel env (xTimerIsTimerActive instance) k)) <> 0) ->
  kernel env furi_kernel_is_irq_or_masked (os w) = (k1, in_irq) ->
  kernel env (pvTimerGetTimerID instance) k1 = (k2, id) ->
  alloc_flag id = true ->
  let r := run env fuel (furi_timer_free instance) w in
  ended r <> Returned tt /\
  replay no_release tt (trace r) = Some tt.
Proof.
  intros Hactive H1 H2 Hflag r. subst r.
  assert (Hrunning : forall w0,
            safe env no_release (furi_timer_is_running instance) tt w0
              (fun running _ _ => running <> 0)).
  { intros w0. unfold furi_timer_is_running.
    apply safe_bind with (Q := fun _ _ _ => True).
    { apply safe_call. intros ans wa _. exists tt. split; [reflexivity|trivial]. }
    intros ? [] ? _.
    apply safe_bind with (Q := fun _ _ _ => True); [apply safe_check; trivial|].
    intros ? [] ? _.
    apply safe_bind with (Q := fun _ _ _ => True); [apply safe_check; trivial|].
    intros ? [] w3 _.
    apply safe_bind with (Q := fun x _ _ => u32 x <> 0).
    { apply safe_call. intros ans wa Hx. exists tt. split; [reflexivity|].
      apply handle_external_os in Hx. specialize (Hactive (os w3)).
      rewrite Hx in Hactive. exact Hactive. }
    intros active [] ? Ha. apply safe_ret. exact Ha. }
  assert (Hsafe : safe env no_release (furi_timer_free instance) tt w (fun _ _ _ => False)).
  { unfold furi_timer_free.
    apply safe_bind with (Q := fun _ _ w' => os w' = k1).
    { apply safe_call. intros ans wa Hx. exists tt. split; [reflexivity|].
      apply handle_external_os in Hx. rewrite H1 in Hx. injection Hx as <- _. reflexivity. }
    intros ? [] w1 Hw1.
    apply safe_bind with (Q := fun _ _ w' => os w' = k1); [apply safe_check; auto|].
    intros ? [] w2 Hw2.
    apply safe_bind with (Q := fun _ _ w' => os w' = k1); [apply safe_check; auto|].
    intros ? [] w3 Hw3.
    apply safe_bind with (Q := fun x _ _ => x = id).
    { apply safe_call. intros ans wa Hx. exists tt. split; [reflexivity|].
      apply handle_external_os in Hx. rewrite Hw3, H2 in Hx. injection Hx as _ <-.
      reflexivity. }
    intros ? [] w4 ->. rewrite Hflag.
    apply safe_bind with (Q := fun _ _ _ => False); [|intros ? ? ? []].
    apply safe_bind with (Q := fun _ _ _ => True).
    { apply safe_call. intros ans wa _. exists tt. split; [reflexivity|trivial]. }
    intros ? [] w5 _.
    apply safe_bind with (Q := fun _ _ _ => True); [apply safe_check; trivial|].
    intros ? [] w6 _.
    apply safe_bind with (Q := fun _ _ _ => False); [|intros ? ? ? []].
    apply (safe_iter env no_release (wait_inactive_step instance)
             (fun _ _ _ => True) (fun _ _ _ => False)); [|trivial].
    intros [] [] w7 _. unfold wait_inactive_step.
    eapply safe_bind; [apply Hrunning|].
    intros running [] w8 Hr. cbn beta in Hr.
    rewrite (proj2 (Z.eqb_neq running 0) Hr). cbn [negb].
    apply safe_bind with (Q := fun _ _ _ => True).
    { apply safe_call. intros ans wa _. exists tt. split; [reflexivity|trivial]. }
    intros ? [] ? _. apply safe_ret. trivial. }
  destruct (Hsafe fuel) as ([] & Hs & Hr). split; [|exact Hs].
  intros E. exact (Hr tt E).
Qed.

(** ** Allocate followed by the other operations *)

Lemma furi_timer_alloc_returns
    (fuel : nat) (w : World K) (f type ctx : Z)
    (k1 k2 k3 k4 k5 : K) (p thread_id name hTimer : Z) :
  (7 <= fuel)%nat ->
  f <> NULL ->
  kernel env furi_kernel_is_irq_or_masked (os w) = (k1, false) ->
  kernel env (malloc sizeof_TimerCallback_t) k1 = (k2, p) ->
  p <> NULL ->
  kernel env furi_thread_get_current_id k2 = (k3, thread_id) ->
  kernel env (furi_thread_get_appid thread_id) k3 = (k4, name) ->
  kernel env (xTimerCreate name portMAX_DELAY
                (if type =? FuriTimerTypeOnce then pdFALSE else pdTRUE)
                (set_alloc_flag p)) k4 = (k5, hTimer) ->
  hTimer <> NULL ->
  run env fuel (furi_timer_alloc f type ctx) w =
  {| ended := Returned hTimer;
     final := {| current_timer_name := current_timer_name w;
                 slots := <[p := {| func := f; context := ctx |}]> (slots w);
                 os := k5 |};
     trace := [ext furi_kernel_is_irq_or_masked false;
               ext (malloc sizeof_TimerCallback_t) p;
               Ev (store_func p f) tt;
               Ev (store_context p ctx) tt;
               ext furi_thread_get_current_id thread_id;
               ext (furi_thread_get_appid thread_id) name;
               ext (xTimerCreate name portMAX_DELAY
                      (if type =? FuriTimerTypeOnce then pdFALSE else pdTRUE)
                      (set_alloc_flag p)) hTimer];
     fuel_left := fuel - 7 |}.
Proof.
  intros Hfuel Hf H1 H2 Hp H3 H4 H5 Hh.
  unfold furi_timer_alloc. at_least 7 of fuel.
  answered H1. checked.
  rewrite run_call_bind, (handle_malloc env _ (set_os w k1) _ _ H2 Hp). cbn [fst snd].
  rewrite run_trigger_bind. cbn [handle slots set_slots set_os].
  rewrite lookup_insert_eq. cbn [func context].
  rewrite run_trigger_bind. cbn [handle slots set_slots set_os].
  rewrite lookup_insert_eq. cbn [func context].
  answered H3. answered H4. answered H5. checked.
  rewrite run_ret. unfold after, stop, set_os, set_slots.
  cbn [ended trace final fuel_left slots os current_timer_name].
  rewrite !insert_insert_eq. f_equal. lia.
Qed.

(** X11.  A timer that Allocate has just created, when the kernel hands
    the trampoline the ID it was created with, dispatches to the function
    Allocate was given, once, with the context Allocate was given.  The
    allocator's block must be aligned to two bytes for the tagged pointer
    to lead back to it. *)
Theorem furi_timer_alloc_then_dispatch
    (fuel : nat) (w : World K) (f type ctx : Z)
    (k1 k2 k3 k4 k5 k6 k7 : K) (p thread_id name hTimer name' : Z) :
  (14 <= fuel)%nat ->
  f <> NULL ->
  kernel env furi_kernel_is_irq_or_masked (os w) = (k1, false) ->
  kernel env (malloc sizeof_TimerCallback_t) k1 = (k2, p) ->
  p <> NULL ->
  0 <= p < 2 ^ 32 ->
  Z.even p = true ->
  kernel env furi_thread_get_current_id k2 = (k3, thread_id) ->
  kernel env (furi_thread_get_appid thread_id) k3 = (k4, name) ->
  kernel env (xTimerCreate name portMAX_DELAY
                (if type =? FuriTimerTypeOnce then pdFALSE else pdTRUE)
                (set_alloc_flag p)) k4 = (k5, hTimer) ->
  hTimer <> NULL ->
  kernel env (pvTimerGetTimerID hTimer) k5 = (k6, set_alloc_flag p) ->
  kernel env (pcTimerGetName hTimer) k6 = (k7, name') ->
  let r := run env fuel (ITree.bind (furi_timer_alloc f type ctx) TimerCallback) w in
  ended r = Returned tt /\
  user_calls (trace r) = [(f, ctx)] /\
  current_timer_name (final r) = NULL.
Proof.
  intros Hfuel Hf H1 H2 Hp Hr He H3 H4 H5 Hh H6 H7 r. subst r.
  rewrite run_bind.
  rewrite (furi_timer_alloc_returns fuel w f type ctx k1 k2 k3 k4 k5 p thread_id name hTimer)
    by (assumption || lia).
  unfold and_then. cbn [ended final trace fuel_left].
  remember (fuel - 7)%nat as n eqn:En. at_least 7 of n.
  unfold TimerCallback.
  answered H6. rewrite (clear_set_aligned p Hr He). decide_tests.
  answered H7.
  rewrite run_trigger_bind. cbn [handle].
  rewrite run_trigger_bind. cbn [handle slots set_current_timer_name set_os].
  rewrite lookup_insert_eq. cbn [func context].
  rewrite run_trigger_bind. cbn [handle slots set_current_timer_name set_os].
  rewrite lookup_insert_eq. cbn [func context].
  rewrite run_trigger_bind.
  cbn [handle slots os current_timer_name set_current_timer_name set_os].
  destruct (application env f ctx name' _) as [m k8].
  rewrite run_trigger. cbn. auto.
Qed.

(** X12.  Allocate followed by Free gives back the memory: when the
    kernel hands Free the ID the timer was created with, accepts the stop
    and delete commands and comes to report the timer inactive, Free
    returns and the slots are what they were before Allocate, the
    allocator's block having been free then. *)
Theorem furi_timer_alloc_then_free
    (fuel : nat) (w : World K) (f type ctx : Z)
    (k1 k2 k3 k4 k5 k6 k7 k8 k9 k10 k11 : K) (p thread_id name hTimer : Z)
    (busy : list Z) (idle : Z) :
  (4 * length busy + 15 <= fuel)%nat ->
  f <> NULL ->
  kernel env furi_kernel_is_irq_or_masked (os w) = (k1, false) ->
  kernel env (malloc sizeof_TimerCallback_t) k1 = (k2, p) ->
  p <> NULL ->
  0 <= p < 2 ^ 32 ->
  Z.even p = true ->
  slots w !! p = None ->
  kernel env furi_thread_get_current_id k2 = (k3, thread_id) ->
  kernel env (furi_thread_get_appid thread_id) k3 = (k4, name) ->
  kernel env (xTimerCreate name portMAX_DELAY
                (if type =? FuriTimerTypeOnce then pdFALSE else pdTRUE)
                (set_alloc_flag p)) k4 = (k5, hTimer) ->
  hTimer <> NULL ->
  kernel env furi_kernel_is_irq_or_masked k5 = (k6, false) ->
  kernel env (pvTimerGetTimerID hTimer) k6 = (k7, set_alloc_flag p) ->
  kernel env (xTimerStop hTimer portMAX_DELAY) k7 = (k8, pdPASS) ->
  waits env hTimer k8 busy idle k9 ->
  kernel env (free p) k9 = (k10, tt) ->
  kernel env (xTimerDelete hTimer portMAX_DELAY) k10 = (k11, pdPASS) ->
  let r := run env fuel (ITree.bind (furi_timer_alloc f type ctx) furi_timer_free) w in
  ended r = Returned tt /\
  slots (final r) = slots w /\
  In (ext (free p) tt) (trace r).
Proof.
  intros Hfuel Hf H1 H2 Hp Hr He Hfree H3 H4 H5 Hh H6 H7 H8 Hwaits H9 H10 r. subst r.
  rewrite run_bind.
  rewrite (furi_timer_alloc_returns fuel w f type ctx k1 k2 k3 k4 k5 p thread_id name hTimer)
    by (assumption || lia).
  unfold and_then. cbn [ended final trace fuel_left].
  rewrite <- (clear_set_aligned p Hr He) in H9.
  match goal with
  | |- context [run env _ (furi_timer_free hTimer) ?w0] =>
      rewrite (furi_timer_free_owned_ends (fuel - 7) w0 hTimer (set_alloc_flag p)
                 k6 k7 k8 k9 k10 k11 busy idle pdPASS Hh H6 H7 (alloc_flag_set p)
                 H8 Hwaits H9 H10) by lia
  end.
  rewrite Z.eqb_refl. cbn [ended final trace slots set_slots set_os].
  rewrite (clear_set_aligned p Hr He).
  split; [reflexivity|]. split.
  - rewrite delete_insert_eq. apply delete_id. exact Hfree.
  - rewrite !in_app_iff. right. right. right. right. left. reflexivity.
Qed.

(** ** What the operations never do *)

Lemma untouched_ret {R : Type} (x : R) : untouched env (Ret x).
Proof. intros w. apply safe_ret. auto. Qed.

Lemma untouched_bind {R T : Type} (t : itree furiE R) (k : R -> itree furiE T) :
  untouched env t -> (forall x, untouched env (k x)) -> untouched env (ITree.bind t k).
Proof.
  intros Ht Hk w. eapply safe_bind; [apply Ht|].
  intros x [] w' [Hs Hn]. eapply safe_mono; [apply Hk|].
  intros y s' w'' [Hs' Hn']. split; congruence.
Qed.

Lemma untouched_call {R : Type} (c : rtosE R) :
  (forall x, no_lifecycle tt (ext c x) = Some tt) -> untouched env (call c).
Proof.
  intros Hc w. apply safe_call. intros x w' H. exists tt. split; [apply Hc|].
  specialize (Hc x). unfold handle_external in H.
  destruct (kernel env c (os w)) as [k r].
  destruct c; try discriminate Hc; injection H as <- <-; auto.
Qed.

Lemma untouched_check (ok : bool) : untouched env (furi_check ok).
Proof. intros w. apply safe_check. auto. Qed.

Lemma untouched_crash {R : Type} (k : void -> itree furiE R) :
  untouched env (ITree.bind (ITree.trigger furi_crash) k).
Proof. intros w. apply safe_crash. Qed.

Ltac untouched_steps :=
  repeat first
    [ apply untouched_ret
    | apply untouched_call; intros ?; reflexivity
    | apply untouched_check
    | apply untouched_crash
    | apply untouched_bind; [|intros ?]
    | match goal with
      | |- untouched _ (if ?b then _ else _) => destruct b
      end ].

Lemma untouched_perform (c : api_call) :
  allocates_or_frees c = false -> untouched env (perform c).
Proof.
  destruct c; cbn [allocates_or_frees perform]; intros Hc; try discriminate Hc.
  - unfold furi_timer_start. untouched_steps.
  - unfold furi_timer_restart. untouched_steps.
  - unfold furi_timer_stop. untouched_steps.
  - unfold furi_timer_is_running. untouched_steps.
  - unfold furi_timer_get_expire_time. untouched_steps.
  - unfold furi_timer_pending_callback. untouched_steps.
  - unfold furi_timer_set_thread_priority. untouched_steps.
  - unfold furi_timer_get_current_name. untouched_steps.
    intros w. apply safe_trigger. intros ans w' H. exists tt. split; [reflexivity|].
    cbn in H. inversion H. auto.
Qed.

Lemma schedule_untouched (fuel : nat) (todo : list api_call) (w w' : World K) :
  forallb (fun c => negb (allocates_or_frees c)) todo = true ->
  schedule env fuel (map Calls todo) w = Some w' ->
  slots w' = slots w /\ current_timer_name w' = current_timer_name w.
Proof.
  revert w. induction todo as [|c todo IH]; intros w Hall.
  - cbn. intros [= <-]. auto.
  - cbn [forallb] in Hall. apply andb_true_iff in Hall as [Hc Hall].
    apply negb_true_iff in Hc. cbn [map schedule act].
    destruct (untouched_perform c Hc w fuel) as ([] & _ & Hr).
    destruct (ended (run env fuel (perform c) w)) as [[]| | |] eqn:E; try discriminate.
    intros Hsch. destruct (Hr tt eq_refl) as [Hslots Hname].
    destruct (IH _ Hall Hsch) as [Hslots' Hname'].
    split; congruence.
Qed.

(** X13.  Only Allocate and Free make or unmake a timer.  No run of any
    other exposed operation allocates or releases a block, writes into a
    slot, or creates or deletes a kernel timer; when such an operation
    returns, the slots and [current_timer_name] are as it found them; and
    so they are after any sequence of such operations. *)
Theorem other_operations_leave_timers_alone
    (c : api_call) (fuel : nat) (w : World K) :
  allocates_or_frees c = false ->
  let r := run env fuel (perform c) w in
  replay no_lifecycle tt (trace r) = Some tt /\
  (ended r = Returned tt ->
     slots (final r) = slots w /\ current_timer_name (final r) = current_timer_name w) /\
  (forall (todo : list api_call) (w' : World K),
     forallb (fun c' => negb (allocates_or_frees c')) todo = true ->
     schedule env fuel (map Calls todo) w = Some w' ->
     slots w' = slots w /\ current_timer_name w' = current_timer_name w).
Proof.
  intros Hc r. subst r.
  destruct (untouched_perform c Hc w fuel) as ([] & Hs & Hr).
  split; [exact Hs|]. split; [exact (Hr tt)|].
  intros todo w'. apply schedule_untouched.
Qed.

(** X14.  The dispatch trampoline only reads: no run of it allocates or
    releases a block, writes into a slot, or creates or deletes a kernel
    timer.  What it changes is [current_timer_name]; anything else is the
    doing of the application function it calls. *)
Theorem TimerCallback_only_reads (hTimer : Z) (fuel : nat) (w : World K) :
  replay no_lifecycle tt (trace (run env fuel (TimerCallback hTimer) w)) = Some tt.
Proof.
  assert (H : safe env no_lifecycle (TimerCallback hTimer) tt w (fun _ _ _ => True)).
  { unfold TimerCallback.
    apply safe_bind with (Q := fun _ _ _ => True).
    { apply safe_call. intros ans wa _. exists tt. split; [reflexivity|trivial]. }
    intros callb [] w1 _.
    destruct (negb (clear_alloc_flag callb =? NULL)); [|apply safe_ret; trivial].
    apply safe_bind with (Q := fun _ _ _ => True).
    { apply safe_call. intros ans wa _. exists tt. split; [reflexivity|trivial]. }
    intros name [] w2 _.
    do 4 (apply safe_bind with (Q := fun _ _ _ => True);
          [apply safe_trigger; intros ans wa _; exists tt; split; [reflexivity|trivial]
          |intros ? [] ? _]).
    apply safe_trigger. intros ans wa _. exists tt. split; [reflexivity|trivial]. }
  destruct (H fuel) as ([] & Hs & _). exact Hs.
Qed.

(** ** The tagged pointer, in arithmetic *)

Lemma double_half_bits (y n : Z) :
  0 <= n -> Z.testbit (2 * (y / 2)) n = Z.testbit y n && negb (n =? 0).
Proof.
  intros Hn. destruct (Z.eqb_spec n 0) as [->|Hn0].
  - rewrite Z.testbit_even_0. apply eq_sym, andb_false_r.
  - replace n with (Z.succ (n - 1)) at 1 by lia.
    rewrite Z.testbit_even_succ by lia.
    rewrite Z.div2_bits by lia.
    replace (Z.succ (n - 1)) with n by lia. rewrite andb_true_r. reflexivity.
Qed.

(** X16.  Tagging turns any value into the even 32-bit value below it
    plus one, and untagging into the even 32-bit value below it: an ID
    read back from the kernel leads to the same slot whether or not the
    flag is set, tagging an odd address moves the slot pointer one byte
    down, and the trampoline takes the slot for null exactly when the ID
    is 0 or 1. *)
Theorem alloc_flag_arithmetic (callb : Z) :
  set_alloc_flag callb = 2 * (u32 callb / 2) + 1 /\
  clear_alloc_flag callb = 2 * (u32 callb / 2) /\
  clear_alloc_flag (set_alloc_flag callb) = clear_alloc_flag callb /\
  alloc_flag (clear_alloc_flag callb) = false /\
  (clear_alloc_flag callb = NULL <-> u32 callb = 0 \/ u32 callb = 1).
Proof.
  assert (Hclear : clear_alloc_flag callb = 2 * (u32 callb / 2)).
  { apply Z.bits_inj'. intros n Hn.
    rewrite clear_alloc_flag_bits, double_half_bits, u32_bits by lia. reflexivity. }
  assert (Hset : set_alloc_flag callb = 2 * (u32 callb / 2) + 1).
  { apply Z.bits_inj'. intros n Hn. rewrite set_alloc_flag_bits by lia.
    destruct (Z.eqb_spec n 0) as [->|Hn0].
    - rewrite Z.testbit_odd_0. apply orb_true_r.
    - replace n with (Z.succ (n - 1)) at 3 by lia.
      rewrite Z.testbit_odd_succ by lia.
      rewrite Z.div2_bits by lia.
      replace (Z.succ (n - 1)) with n by lia.
      rewrite u32_bits, orb_false_r by lia. reflexivity. }
  pose proof (u32_range callb) as Hr.
  split; [exact Hset|]. split; [exact Hclear|]. split; [|split].
  - apply Z.bits_inj'. intros n Hn.
    rewrite !clear_alloc_flag_bits, set_alloc_flag_bits by lia.
    destruct (n <? 32), (Z.testbit callb n), (n =? 0); reflexivity.
  - rewrite alloc_flag_bit, clear_alloc_flag_bits by lia. apply andb_false_r.
  - rewrite Hclear. unfold NULL. split.
    + intros H0. assert (u32 callb / 2 = 0) as Hd by lia.
      apply Z.div_small_iff in Hd; lia.
    + intros [->| ->]; reflexivity.
Qed.

(** X17.  Allocate writes only into the block the allocator handed out:
    when it returns, every other slot is as it was, and so is
    [current_timer_name]. *)
Theorem furi_timer_alloc_touches_only_its_block
    (fuel : nat) (w : World K) (f type ctx : Z)
    (k1 k2 k3 k4 k5 : K) (p thread_id name hTimer : Z) :
  (7 <= fuel)%nat ->
  f <> NULL ->
  kernel env furi_kernel_is_irq_or_masked (os w) = (k1, false) ->
  kernel env (malloc sizeof_TimerCallback_t) k1 = (k2, p) ->
  p <> NULL ->
  kernel env furi_thread_get_current_id k2 = (k3, thread_id) ->
  kernel env (furi_thread_get_appid thread_id) k3 = (k4, name) ->
  kernel env (xTimerCreate name portMAX_DELAY
                (if type =? FuriTimerTypeOnce then pdFALSE else pdTRUE)
                (set_alloc_flag p)) k4 = (k5, hTimer) ->
  hTimer <> NULL ->
  let r := run env fuel (furi_timer_alloc f type ctx) w in
  (forall q, q <> p -> slots (final r) !! q = slots w !! q) /\
  current_timer_name (final r) = current_timer_name w /\
  user_calls (trace r) = [].
Proof.
  intros Hfuel Hf H1 H2 Hp H3 H4 H5 Hh r. subst r.
  rewrite (furi_timer_alloc_returns fuel w f type ctx k1 k2 k3 k4 k5 p thread_id name hTimer)
    by assumption.
  cbn [final slots current_timer_name trace]. split; [|split; reflexivity].
  intros q Hq. apply lookup_insert_ne. congruence.
Qed.


End More.

(** ** The further scenarios, run *)

Section EdgeScenarios.
#[local] Existing Instance Sim.platform.
Import Scenario.

Lemma furi_timer_stop_ok_or_halt_witness :
  let r := run env 3 (furi_timer_stop hTimer) started in
  let r' := run env 3 (furi_timer_stop hTimer) Edge.refusing in
  (ended r = Returned FuriStatusOk /\
   Sim.armed <$> Sim.timers (os (final r)) !! hTimer = Some false) /\
  ended r' = Crashed.
Proof.
  intros r r'. split.
  - destruct (furi_timer_stop_ok_or_halt env 3 started hTimer (os started)
                (fst (Sim.step (xTimerStop hTimer portMAX_DELAY) (os started))) 1
                ltac:(lia) ltac:(vm_compute; discriminate)
                ltac:(vm_compute; reflexivity) ltac:(vm_compute; reflexivity))
      as (H1 & _ & H3).
    split; [exact H1|]. fold r in H3. rewrite H3. vm_compute. reflexivity.
  - exact (proj1 (furi_timer_stop_ok_or_halt env 3 Edge.refusing hTimer (os Edge.refusing)
                    (fst (Sim.step (xTimerStop hTimer portMAX_DELAY) (os Edge.refusing))) 0
                    ltac:(lia) ltac:(vm_compute; discriminate)
                    ltac:(vm_compute; reflexivity) ltac:(vm_compute; reflexivity))).
Defined.

Lemma null_handle_halts_witness :
  let r := run env 2 (perform (Op_stop NULL)) started in
  ended r = Crashed /\
  trace r = [ext furi_kernel_is_irq_or_masked false] /\
  final r = started.
Proof.
  exact (null_handle_halts env (Op_stop NULL) 2 started (os started)
           ltac:(lia) eq_refl ltac:(vm_compute; reflexivity)).
Defined.

Lemma period_at_sentinel_halts_witness :
  let s := run env 2 (furi_timer_start hTimer portMAX_DELAY) started in
  ended s = Crashed /\ final s = started.
Proof.
  intros s.
  destruct (period_at_sentinel_halts env 2 started hTimer portMAX_DELAY (os started)
              ltac:(lia) ltac:(vm_compute; discriminate) ltac:(reflexivity)
              ltac:(vm_compute; reflexivity))
    as [(H1 & _ & H3) _].
  split; [exact H1|exact H3].
Defined.

Lemma furi_timer_alloc_without_callback_halts_witness :
  let r := run env 2 (furi_timer_alloc NULL FuriTimerTypeOnce 1) booted in
  ended r = Crashed /\
  trace r = [ext furi_kernel_is_irq_or_masked false] /\
  final r = booted.
Proof.
  exact (furi_timer_alloc_without_callback_halts env 2 booted FuriTimerTypeOnce 1
           (os booted) false ltac:(lia) ltac:(vm_compute; reflexivity)).
Defined.

Lemma furi_timer_alloc_create_failure_halts_witness :
  let r := run env 8 (furi_timer_alloc callback FuriTimerTypeOnce 1) Edge.exhausted in
  ended r = Crashed /\
  slots (final r) !! 536936448 = Some {| func := callback; context := 1 |}.
Proof.
  intros r.
  destruct (furi_timer_alloc_create_failure_halts env 8 Edge.exhausted callback
              FuriTimerTypeOnce 1
              (os Edge.exhausted)
              (fst (Sim.step (malloc sizeof_TimerCallback_t) (os Edge.exhausted)))
              (fst (Sim.step (malloc sizeof_TimerCallback_t) (os Edge.exhausted)))
              (fst (Sim.step (malloc sizeof_TimerCallback_t) (os Edge.exhausted)))
              (fst (Sim.step (malloc sizeof_TimerCallback_t) (os Edge.exhausted)))
              536936448 (Sim.thread Sim.boot) (Sim.appid Sim.boot)
              ltac:(lia) ltac:(vm_compute; discriminate)
              ltac:(vm_compute; reflexivity) ltac:(vm_compute; reflexivity)
              ltac:(vm_compute; discriminate)
              ltac:(vm_compute; reflexivity) ltac:(vm_compute; reflexivity)
              ltac:(vm_compute; reflexivity))
    as (H1 & _ & H3).
  split; [exact H1|exact H3].
Defined.

Lemma queries_return_kernel_answer_witness :
  let r := run env 2 (furi_timer_is_running hTimer) started in
  let e := run env 2 (furi_timer_get_expire_time hTimer) started in
  ended r = Returned 1 /\ ended e = Returned 10.
Proof.
  intros r e.
  destruct (queries_return_kernel_answer env 2 started hTimer
              (os started) (os started) (os started) 1 10
              ltac:(lia) ltac:(vm_compute; discriminate)
              ltac:(vm_compute; reflexivity) ltac:(vm_compute; reflexivity)
              ltac:(vm_compute; reflexivity))
    as [(H1 & _) (H2 & _)].
  split; [exact H1|exact H2].
Defined.

Lemma furi_timer_free_stop_refused_halts_witness :
  let r := run env 4 (furi_timer_free hTimer) Edge.refusing in
  ended r = Crashed /\
  slots (final r) !! 536936448 = Some {| func := callback; context := 1 |} /\
  is_Some (Sim.timers (os (final r)) !! hTimer).
Proof.
  intros r.
  destruct (furi_timer_free_stop_refused_halts env 4 Edge.refusing hTimer 536936449
              (os Edge.refusing) (os Edge.refusing)
              (fst (Sim.step (xTimerStop hTimer portMAX_DELAY) (os Edge.refusing))) 0
              ltac:(lia) ltac:(vm_compute; discriminate)
              ltac:(vm_compute; reflexivity) ltac:(vm_compute; reflexivity)
              ltac:(vm_compute; reflexivity) ltac:(vm_compute; reflexivity)
              ltac:(vm_compute; discriminate))
    as (H1 & _ & H3).
  split; [exact H1|]. fold r in H3. rewrite H3.
  split; [vm_compute; reflexivity|]. vm_compute. eexists. reflexivity.
Defined.

Lemma furi_timer_free_delete_refused_halts_witness :
  let r := run env 8 (furi_timer_free hTimer) congested in
  ended r = Crashed /\
  slots (final r) !! 536936448 = None /\
  is_Some (Sim.timers (os (final r)) !! hTimer).
Proof.
  intros r.
  destruct (furi_timer_free_delete_refused_halts env 8 congested hTimer 536936449
              (os congested) (os congested)
              (fst (Sim.step (xTimerStop hTimer portMAX_DELAY) (os congested)))
              (fst (Sim.step (xTimerStop hTimer portMAX_DELAY) (os congested)))
              (fst (Sim.step (xTimerStop hTimer portMAX_DELAY) (os congested)))
              (fst (Sim.step (xTimerDelete hTimer portMAX_DELAY)
                      (fst (Sim.step (xTimerStop hTimer portMAX_DELAY) (os congested)))))
              [] 0 0
              ltac:(vm_compute; discriminate)
              ltac:(vm_compute; reflexivity) ltac:(vm_compute; reflexivity)
              ltac:(vm_compute; reflexivity) ltac:(vm_compute; reflexivity)
              ltac:(eapply waits_done; vm_compute; reflexivity)
              ltac:(vm_compute; reflexivity) ltac:(vm_compute; reflexivity)
              ltac:(vm_compute; discriminate) ltac:(cbn; lia))
    as (H1 & _ & _ & H4).
  split; [exact H1|]. split; [exact H4|]. vm_compute. eexists. reflexivity.
Defined.

Lemma furi_timer_free_blocks_while_active_witness :
  let r := run Edge.stuck 1000 (furi_timer_free hTimer) started in
  ended r = Blocked /\
  replay no_release tt (trace r) = Some tt.
Proof.
  intros r.
  destruct (furi_timer_free_blocks_while_active Edge.stuck 1000 started hTimer
              (os started) (os started) false 536936449
              ltac:(intros k; vm_compute; discriminate)
              ltac:(vm_compute; reflexivity) ltac:(vm_compute; reflexivity)
              ltac:(vm_compute; reflexivity))
    as [_ H2].
  split; [vm_compute; reflexivity|exact H2].
Defined.

Lemma furi_timer_alloc_then_dispatch_witness :
  let r := run env 14 (ITree.bind (furi_timer_alloc callback FuriTimerTypeOnce 1)
                         TimerCallback) booted in
  ended r = Returned tt /\ user_calls (trace r) = [(callback, 1)].
Proof.
  intros r.
  destruct (furi_timer_alloc_then_dispatch env 14 booted callback FuriTimerTypeOnce 1
              (os booted)
              (fst (Sim.step (malloc sizeof_TimerCallback_t) (os booted)))
              (fst (Sim.step (malloc sizeof_TimerCallback_t) (os booted)))
              (fst (Sim.step (malloc sizeof_TimerCallback_t) (os booted)))
              (os created) (os created) (os created)
              536936448 (Sim.thread Sim.boot) (Sim.appid Sim.boot) hTimer
              (Sim.appid Sim.boot)
              ltac:(lia) ltac:(vm_compute; discriminate)
              ltac:(vm_compute; reflexivity) ltac:(vm_compute; reflexivity)
              ltac:(vm_compute; discriminate) ltac:(lia) ltac:(reflexivity)
              ltac:(vm_compute; reflexivity) ltac:(vm_compute; reflexivity)
              ltac:(vm_compute; reflexivity) ltac:(vm_compute; discriminate)
              ltac:(vm_compute; reflexivity) ltac:(vm_compute; reflexivity))
    as (H1 & H2 & _).
  split; [exact H1|exact H2].
Defined.

Lemma furi_timer_alloc_then_free_witness :
  let r := run env 15 (ITree.bind (furi_timer_alloc callback FuriTimerTypeOnce 1)
                         furi_timer_free) booted in
  ended r = Returned tt /\ slots (final r) = slots booted.
Proof.
  intros r.
  destruct (furi_timer_alloc_then_free env 15 booted callback FuriTimerTypeOnce 1
              (os booted)
              (fst (Sim.step (malloc sizeof_TimerCallback_t) (os booted)))
              (fst (Sim.step (malloc sizeof_TimerCallback_t) (os booted)))
              (fst (Sim.step (malloc sizeof_TimerCallback_t) (os booted)))
              (os created) (os created) (os created) (os created) (os created) (os created)
              (fst (Sim.step (xTimerDelete hTimer portMAX_DELAY) (os created)))
              536936448 (Sim.thread Sim.boot) (Sim.appid Sim.boot) hTimer [] 0
              ltac:(cbn; lia) ltac:(vm_compute; discriminate)
              ltac:(vm_compute; reflexivity) ltac:(vm_compute; reflexivity)
              ltac:(vm_compute; discriminate) ltac:(lia) ltac:(reflexivity)
              ltac:(vm_compute; reflexivity)
              ltac:(vm_compute; reflexivity) ltac:(vm_compute; reflexivity)
              ltac:(vm_compute; reflexivity) ltac:(vm_compute; discriminate)
              ltac:(vm_compute; reflexivity) ltac:(vm_compute; reflexivity)
              ltac:(vm_compute; reflexivity)
              ltac:(eapply waits_done; vm_compute; reflexivity)
              ltac:(vm_compute; reflexivity) ltac:(vm_compute; reflexivity))
    as (H1 & H2 & _).
  split; [exact H1|exact H2].
Defined.

Lemma other_operations_leave_timers_alone_witness :
  let r := run env 3 (perform (Op_restart hTimer 5)) started in
  replay no_lifecycle tt (trace r) = Some tt /\
  ended r = Returned tt /\
  slots (final r) = slots started.
Proof.
  intros r.
  destruct (other_operations_leave_timers_alone env (Op_restart hTimer 5) 3 started eq_refl)
    as (H1 & H2 & _).
  assert (E : ended r = Returned tt) by (vm_compute; reflexivity).
  split; [exact H1|]. split; [exact E|]. exact (proj1 (H2 E)).
Defined.

Lemma furi_timer_alloc_touches_only_its_block_witness :
  let r := run env 7 (furi_timer_alloc callback FuriTimerTypeOnce 2) started in
  slots (final r) !! 536936448 = Some {| func := callback; context := 1 |} /\
  current_timer_name (final r) = NULL.
Proof.
  intros r.
  destruct (furi_timer_alloc_touches_only_its_block env 7 started callback FuriTimerTypeOnce 2
              (os started)
              (fst (Sim.step (malloc sizeof_TimerCallback_t) (os started)))
              (fst (Sim.step (malloc sizeof_TimerCallback_t) (os started)))
              (fst (Sim.step (malloc sizeof_TimerCallback_t) (os started)))
              (os (final r))
              536936456 (Sim.thread Sim.boot) (Sim.appid Sim.boot) (hTimer + 1)
              ltac:(lia) ltac:(vm_compute; discriminate)
              ltac:(vm_compute; reflexivity) ltac:(vm_compute; reflexivity)
              ltac:(vm_compute; discriminate)
              ltac:(vm_compute; reflexivity) ltac:(vm_compute; reflexivity)
              ltac:(vm_compute; reflexivity) ltac:(vm_compute; discriminate))
    as (H1 & H2 & _).
  split; [|exact H2].
  fold r in H1. rewrite (H1 536936448) by (vm_compute; discriminate).
  vm_compute. reflexivity.
Defined.

End EdgeScenarios.
